(** * Grafana OnCall plugin: routing helper and AlertReceiveChannelStore

    A shallow embedding of
    - [CommonIntegrationHelper] (route condition wording), and
    - [AlertReceiveChannelStore]
      (grafana-plugin/src/models/alert_receive_channel/alert_receive_channel.ts),
    the client-side cache of alert receive channels, channel filters,
    templates, counters and heartbeats.

    JavaScript objects used as dictionaries are finite maps ([gmap string _]),
    arrays are lists, an [async] method is a program of a small free monad
    whose nodes are the awaited network calls and the mutations of the
    observable state; running such a program against a server yields the
    trace of what happened, the final state and the outcome of the promise. *)

From Stdlib Require Import ZArith Bool.
From stdpp Require Import base gmap strings list fin_maps pretty.

Local Open Scope string_scope.
Local Open Scope Z_scope.

(** ** JavaScript values *)

(** A property of an object that may be absent ([undefined]), [null], or
    hold a value. *)
Inductive jsfield (A : Type) : Type :=
| Missing
| Null
| Val (a : A).
Arguments Missing {A}.
Arguments Null {A}.
Arguments Val {A} a.

(** Truthiness of an object-valued property: [undefined] and [null] are
    falsy, every object is truthy. *)
Definition truthy {A} (f : jsfield A) : option A :=
  match f with
  | Val a => Some a
  | _ => None
  end.

(** [x || null] for an object-valued [x]. *)
Definition or_null {A} (f : jsfield A) : jsfield A :=
  match f with
  | Val a => Val a
  | _ => Null
  end.

(** [arr[i]] for an integral number [i]: [None] is [undefined]. *)
Definition jsindex {A} (arr : list A) (i : Z) : option A :=
  if 0 <=? i then arr !! Z.to_nat i else None.

(** [Object.keys(arr).length] of a dense array. *)
Definition keys_length {A} (arr : list A) : Z := Z.of_nat (length arr).

(** An identifier interpolated into a template literal. *)
Definition interpolate (x : option string) : string :=
  match x with
  | Some s => s
  | None => "undefined"
  end.

(** ** CommonIntegrationHelper *)

Module CommonIntegrationHelper.

Inductive RouteConditionWording : Type := Default | Else | If.

Record LabelPair : Type := { lp_key : string; lp_value : string }.

(** [routeIndex] is the position of a route, an integral number; it is falsy
    exactly when it is [0]. *)
Definition getRouteConditionWording
    (channelFilters : list string) (routeIndex : Z) : RouteConditionWording :=
  let totalCount := keys_length channelFilters in
  if routeIndex =? totalCount - 1 then Default
  else if routeIndex =? 0 then If else Else.

Definition default_route_sentence : string :=
  "If the alert payload does not match to the previous routes, it will stick to the default route.".

Definition labels_sentence : string :=
  "Alerts matching these labels will be grouped to this route".

Definition templating_sentence : string :=
  "Alerts will be grouped based on the Routing Template and escalated".

(** [labels?.length]: falsy for [undefined]/[null] and for the empty
    array. *)
Definition has_labels (labels : option (list LabelPair)) : bool :=
  match labels with
  | Some (_ :: _) => true
  | _ => false
  end.

Definition getRouteConditionTooltipWording
    (channelFilters : list string) (routeIndex : Z)
    (labels : option (list LabelPair)) : string :=
  let totalCount := keys_length channelFilters in
  if routeIndex =? totalCount - 1 then default_route_sentence
  else if has_labels labels then labels_sentence
  else templating_sentence.

End CommonIntegrationHelper.

(** ** Resource DTOs *)

Record Heartbeat : Type := {
  hb_id : string;
  hb_alert_receive_channel : string;
  hb_timeout_seconds : Z;
  hb_status : bool;
}.

Record AlertReceiveChannel : Type := {
  arc_id : string;
  arc_description_short : option string;
  arc_verbal_name : option string;
  arc_allow_source_based_resolving : bool;
  arc_alert_group_labels : list (string * string);
  arc_heartbeat : jsfield Heartbeat;
}.

(** [{ ...item, heartbeat: hb }] and [omit(item, 'heartbeat')]. *)
Definition with_heartbeat (hb : jsfield Heartbeat) (item : AlertReceiveChannel)
    : AlertReceiveChannel :=
  {| arc_id := arc_id item;
     arc_description_short := arc_description_short item;
     arc_verbal_name := arc_verbal_name item;
     arc_allow_source_based_resolving := arc_allow_source_based_resolving item;
     arc_alert_group_labels := arc_alert_group_labels item;
     arc_heartbeat := hb |}.

Definition omit_heartbeat (item : AlertReceiveChannel) : AlertReceiveChannel :=
  with_heartbeat Missing item.

Record AlertReceiveChannelUpdate : Type := {
  upd_description_short : option string;
  upd_verbal_name : option string;
  upd_allow_source_based_resolving : bool;
  upd_alert_group_labels : list (string * string);
}.

(** [OmitReadonlyMembers<AlertReceiveChannelUpdate>] as passed by callers:
    every member may be left out. *)
Record UpdatePayload : Type := {
  pl_description_short : option (option string);
  pl_verbal_name : option (option string);
  pl_allow_source_based_resolving : option bool;
  pl_alert_group_labels : option (list (string * string));
}.

Record ChannelFilter : Type := {
  cf_id : string;
  cf_alert_receive_channel : string;
  cf_filtering_term : string;
  cf_is_default : bool;
}.

(** [Partial<ChannelFilter>] *)
Record ChannelFilterPatch : Type := {
  cfp_filtering_term : option string;
  cfp_is_default : option bool;
}.

Record AlertTemplatesDTO : Type := { tpl_fields : list (string * string) }.

Record OutgoingWebhook : Type := { ow_id : string }.

Record ContactPoint : Type := {
  dataSourceName : string;
  dataSourceId : string;
  contactPoint : string;
  notificationConnected : bool;
}.

Record ConnectedContactPoint : Type := {
  ccp_name : string;
  ccp_notification_connected : bool;
}.

Record ContactPointsPayload : Type := {
  cpp_name : string;
  cpp_uid : string;
  cpp_contact_points : list ConnectedContactPoint;
}.

Record AlertReceiveChannelCounters : Type := {
  alerts_count : option Z;
  alert_groups_count : option Z;
}.

(** [{ ...c }] for a possibly [undefined] [c]: spreading [undefined] gives
    the empty object. *)
Definition spread_counters (c : option AlertReceiveChannelCounters)
    : AlertReceiveChannelCounters :=
  match c with
  | Some c => c
  | None => {| alerts_count := None; alert_groups_count := None |}
  end.

Record IntegrationOption : Type := {
  io_value : string;
  io_display_name : string;
  io_featured : bool;
}.

Record PaginatedSearchResult : Type := {
  psr_count : option Z;
  psr_results : option (list string);
  psr_page_size : option Z;
}.

(** ** Observable state

    The fields of [AlertReceiveChannelStore], and the one field of another
    store that its methods write: [rootStore.heartbeatStore.items]. *)

Record State : Type := {
  searchResult : option (list string);
  paginatedSearchResult : PaginatedSearchResult;
  items : gmap string AlertReceiveChannel;
  counters : gmap string AlertReceiveChannelCounters;
  channelFilterIds : gmap string (list string);
  channelFilters : gmap string ChannelFilter;
  alertReceiveChannelToHeartbeat : gmap string string;
  actions : gmap string (list OutgoingWebhook);
  alertReceiveChannelOptions : list IntegrationOption;
  templates : gmap string (list AlertTemplatesDTO);
  connectedContactPoints : gmap string (list ContactPoint);
  heartbeatStore_items : gmap string Heartbeat;
}.

(** The state of a freshly constructed store. *)
Definition initial : State :=
  {| searchResult := None;
     paginatedSearchResult :=
       {| psr_count := None; psr_results := None; psr_page_size := None |};
     items := ∅; counters := ∅; channelFilterIds := ∅; channelFilters := ∅;
     alertReceiveChannelToHeartbeat := ∅; actions := ∅;
     alertReceiveChannelOptions := []; templates := ∅;
     connectedContactPoints := ∅; heartbeatStore_items := ∅ |}.

Definition set_searchResult (v : option (list string)) (s : State) : State :=
  {| searchResult := v;
     paginatedSearchResult := paginatedSearchResult s; items := items s;
     counters := counters s; channelFilterIds := channelFilterIds s;
     channelFilters := channelFilters s;
     alertReceiveChannelToHeartbeat := alertReceiveChannelToHeartbeat s;
     actions := actions s;
     alertReceiveChannelOptions := alertReceiveChannelOptions s;
     templates := templates s;
     connectedContactPoints := connectedContactPoints s;
     heartbeatStore_items := heartbeatStore_items s |}.

Definition set_paginatedSearchResult (v : PaginatedSearchResult) (s : State) : State :=
  {| searchResult := searchResult s;
     paginatedSearchResult := v; items := items s;
     counters := counters s; channelFilterIds := channelFilterIds s;
     channelFilters := channelFilters s;
     alertReceiveChannelToHeartbeat := alertReceiveChannelToHeartbeat s;
     actions := actions s;
     alertReceiveChannelOptions := alertReceiveChannelOptions s;
     templates := templates s;
     connectedContactPoints := connectedContactPoints s;
     heartbeatStore_items := heartbeatStore_items s |}.

Definition set_items (v : gmap string AlertReceiveChannel) (s : State) : State :=
  {| searchResult := searchResult s;
     paginatedSearchResult := paginatedSearchResult s; items := v;
     counters := counters s; channelFilterIds := channelFilterIds s;
     channelFilters := channelFilters s;
     alertReceiveChannelToHeartbeat := alertReceiveChannelToHeartbeat s;
     actions := actions s;
     alertReceiveChannelOptions := alertReceiveChannelOptions s;
     templates := templates s;
     connectedContactPoints := connectedContactPoints s;
     heartbeatStore_items := heartbeatStore_items s |}.

Definition set_counters (v : gmap string AlertReceiveChannelCounters) (s : State) : State :=
  {| searchResult := searchResult s;
     paginatedSearchResult := paginatedSearchResult s; items := items s;
     counters := v; channelFilterIds := channelFilterIds s;
     channelFilters := channelFilters s;
     alertReceiveChannelToHeartbeat := alertReceiveChannelToHeartbeat s;
     actions := actions s;
     alertReceiveChannelOptions := alertReceiveChannelOptions s;
     templates := templates s;
     connectedContactPoints := connectedContactPoints s;
     heartbeatStore_items := heartbeatStore_items s |}.

Definition set_channelFilterIds (v : gmap string (list string)) (s : State) : State :=
  {| searchResult := searchResult s;
     paginatedSearchResult := paginatedSearchResult s; items := items s;
     counters := counters s; channelFilterIds := v;
     channelFilters := channelFilters s;
     alertReceiveChannelToHeartbeat := alertReceiveChannelToHeartbeat s;
     actions := actions s;
     alertReceiveChannelOptions := alertReceiveChannelOptions s;
     templates := templates s;
     connectedContactPoints := connectedContactPoints s;
     heartbeatStore_items := heartbeatStore_items s |}.

Definition set_channelFilters (v : gmap string ChannelFilter) (s : State) : State :=
  {| searchResult := searchResult s;
     paginatedSearchResult := paginatedSearchResult s; items := items s;
     counters := counters s; channelFilterIds := channelFilterIds s;
     channelFilters := v;
     alertReceiveChannelToHeartbeat := alertReceiveChannelToHeartbeat s;
     actions := actions s;
     alertReceiveChannelOptions := alertReceiveChannelOptions s;
     templates := templates s;
     connectedContactPoints := connectedContactPoints s;
     heartbeatStore_items := heartbeatStore_items s |}.

Definition set_alertReceiveChannelToHeartbeat (v : gmap string string) (s : State) : State :=
  {| searchResult := searchResult s;
     paginatedSearchResult := paginatedSearchResult s; items := items s;
     counters := counters s; channelFilterIds := channelFilterIds s;
     channelFilters := channelFilters s;
     alertReceiveChannelToHeartbeat := v;
     actions := actions s;
     alertReceiveChannelOptions := alertReceiveChannelOptions s;
     templates := templates s;
     connectedContactPoints := connectedContactPoints s;
     heartbeatStore_items := heartbeatStore_items s |}.

Definition set_alertReceiveChannelOptions (v : list IntegrationOption) (s : State) : State :=
  {| searchResult := searchResult s;
     paginatedSearchResult := paginatedSearchResult s; items := items s;
     counters := counters s; channelFilterIds := channelFilterIds s;
     channelFilters := channelFilters s;
     alertReceiveChannelToHeartbeat := alertReceiveChannelToHeartbeat s;
     actions := actions s;
     alertReceiveChannelOptions := v;
     templates := templates s;
     connectedContactPoints := connectedContactPoints s;
     heartbeatStore_items := heartbeatStore_items s |}.

Definition set_templates (v : gmap string (list AlertTemplatesDTO)) (s : State) : State :=
  {| searchResult := searchResult s;
     paginatedSearchResult := paginatedSearchResult s; items := items s;
     counters := counters s; channelFilterIds := channelFilterIds s;
     channelFilters := channelFilters s;
     alertReceiveChannelToHeartbeat := alertReceiveChannelToHeartbeat s;
     actions := actions s;
     alertReceiveChannelOptions := alertReceiveChannelOptions s;
     templates := v;
     connectedContactPoints := connectedContactPoints s;
     heartbeatStore_items := heartbeatStore_items s |}.

Definition set_connectedContactPoints (v : gmap string (list ContactPoint)) (s : State) : State :=
  {| searchResult := searchResult s;
     paginatedSearchResult := paginatedSearchResult s; items := items s;
     counters := counters s; channelFilterIds := channelFilterIds s;
     channelFilters := channelFilters s;
     alertReceiveChannelToHeartbeat := alertReceiveChannelToHeartbeat s;
     actions := actions s;
     alertReceiveChannelOptions := alertReceiveChannelOptions s;
     templates := templates s;
     connectedContactPoints := v;
     heartbeatStore_items := heartbeatStore_items s |}.

Definition set_heartbeatStore_items (v : gmap string Heartbeat) (s : State) : State :=
  {| searchResult := searchResult s;
     paginatedSearchResult := paginatedSearchResult s; items := items s;
     counters := counters s; channelFilterIds := channelFilterIds s;
     channelFilters := channelFilters s;
     alertReceiveChannelToHeartbeat := alertReceiveChannelToHeartbeat s;
     actions := actions s;
     alertReceiveChannelOptions := alertReceiveChannelOptions s;
     templates := templates s;
     connectedContactPoints := connectedContactPoints s;
     heartbeatStore_items := v |}.

(** ** The network boundary *)

Inductive Method : Type := GET | POST | PUT | DELETE.

(** The [params] handed to [GET /alert_receive_channels/]. *)
Inductive ListParams : Type :=
| SearchParams (search : string)
| RawParams (query : list (string * string))
| PagedQuery (filters : list (string * string)) (page : Z).

Record Page : Type := {
  page_count : option Z;
  page_results : list AlertReceiveChannel;
  page_page_size : option Z;
}.

Inductive RequestData : Type :=
| NoData
| ChannelFilterData (d : ChannelFilterPatch)
| TemplatesData (d : AlertTemplatesDTO).

(** The second argument of the generic helper [makeRequest]. *)
Record RequestConfig : Type := {
  method : option Method;
  params : list (string * option string);
  data : RequestData;
  withCredentials : bool;
}.

(** [makeRequest] returns [any]; a call site uses the response at one of
    these shapes. *)
Inductive Expect : Type :=
| ExpectChannelFilters
| ExpectChannelFilter
| ExpectTemplates
| ExpectIgnored.

Definition expected (e : Expect) : Type :=
  match e with
  | ExpectChannelFilters => list ChannelFilter
  | ExpectChannelFilter => ChannelFilter
  | ExpectTemplates => list AlertTemplatesDTO
  | ExpectIgnored => unit
  end.

(** A network call, indexed by the type of the data it resolves to: the
    endpoints of the generated typed client [onCallApi] that the store
    uses, and the generic [makeRequest]. *)
Inductive NetCall : Type -> Type :=
| onCallApi_POST_alert_receive_channels
    (skipErrorHandling : option bool) (body : AlertReceiveChannel)
    : NetCall AlertReceiveChannel
| onCallApi_PUT_alert_receive_channels_id
    (skipErrorHandling : option bool) (id : string) (body : AlertReceiveChannelUpdate)
    : NetCall AlertReceiveChannel
| onCallApi_GET_alert_receive_channels_id
    (skipErrorHandling : option bool) (id : string)
    : NetCall AlertReceiveChannel
| onCallApi_GET_alert_receive_channels (p : ListParams) : NetCall Page
| onCallApi_GET_integration_options : NetCall (list IntegrationOption)
| onCallApi_GET_connected_contact_points (id : string)
    : NetCall (list ContactPointsPayload)
| onCallApi_GET_counters : NetCall (gmap string AlertReceiveChannelCounters)
| onCallApi_GET_counters_id (id : string)
    : NetCall (gmap string AlertReceiveChannelCounters)
| makeRequest (e : Expect) (path : string) (config : RequestConfig)
    : NetCall (expected e).

(** The path a call targets. *)
Definition path_of {R} (c : NetCall R) : string :=
  match c with
  | onCallApi_POST_alert_receive_channels _ _ => "/alert_receive_channels/"
  | onCallApi_PUT_alert_receive_channels_id _ id _ =>
      "/alert_receive_channels/" +:+ id +:+ "/"
  | onCallApi_GET_alert_receive_channels_id _ id =>
      "/alert_receive_channels/" +:+ id +:+ "/"
  | onCallApi_GET_alert_receive_channels _ => "/alert_receive_channels/"
  | onCallApi_GET_integration_options =>
      "/alert_receive_channels/integration_options/"
  | onCallApi_GET_connected_contact_points id =>
      "/alert_receive_channels/" +:+ id +:+ "/connected_contact_points/"
  | onCallApi_GET_counters => "/alert_receive_channels/counters/"
  | onCallApi_GET_counters_id id =>
      "/alert_receive_channels/" +:+ id +:+ "/counters/"
  | makeRequest _ path _ => path
  end.

(** The HTTP method of a call ([makeRequest] defaults to GET). *)
Definition method_of {R} (c : NetCall R) : Method :=
  match c with
  | onCallApi_POST_alert_receive_channels _ _ => POST
  | onCallApi_PUT_alert_receive_channels_id _ _ _ => PUT
  | makeRequest _ _ config => default GET (method config)
  | _ => GET
  end.

(** What the world outside the store answers: [None] is a failed request
    (the awaited promise rejects); [external] tells whether an awaited method
    of another store resolves.  The answer depends on the request alone: no
    method of the store issues the same request twice in one call. *)
Record Server : Type := {
  respond : forall R, NetCall R -> option R;
  external : string -> bool;
}.

(** ** Asynchronous store methods as programs *)

Inductive Prog (A : Type) : Type :=
| Ret (a : A)
| Throw (e : string)
| Await {R : Type} (c : NetCall R) (k : R -> Prog A)
| Read (k : State -> Prog A)
| RunInAction (f : State -> State) (k : Prog A)
| Assign (f : State -> State) (k : Prog A)
| AwaitExternal (name : string) (k : Prog A)
| Detach (p : Prog unit) (k : Prog A).
Arguments Ret {A} a.
Arguments Throw {A} e.
Arguments Await {A R} c k.
Arguments Read {A} k.
Arguments RunInAction {A} f k.
Arguments Assign {A} f k.
Arguments AwaitExternal {A} name k.
Arguments Detach {A} p k.

Fixpoint bind {A B} (p : Prog A) (f : A -> Prog B) : Prog B :=
  match p with
  | Ret a => f a
  | Throw e => Throw e
  | Await c k => Await c (fun r => bind (k r) f)
  | Read k => Read (fun s => bind (k s) f)
  | RunInAction g k => RunInAction g (bind k f)
  | Assign g k => Assign g (bind k f)
  | AwaitExternal n k => AwaitExternal n (bind k f)
  | Detach q k => Detach q (bind k f)
  end.

#[export] Instance Prog_ret : MRet Prog := @Ret.
#[export] Instance Prog_bind : MBind Prog := fun A B f p => bind p f.

(** [await call] *)
Definition await {R} (c : NetCall R) : Prog R := Await c Ret.
(** [runInAction(() => { ... })] *)
Definition runInAction (f : State -> State) : Prog unit := RunInAction f (Ret tt).
(** a statement of a method that writes observable state itself, without
    [runInAction]; in this store every such statement comes before the first
    await of its method, where the action that [makeAutoObservable] wraps
    around the method is still open *)
Definition assign (f : State -> State) : Prog unit := Assign f (Ret tt).
(** [await otherStore.method()] *)
Definition awaitExternal (name : string) : Prog unit := AwaitExternal name (Ret tt).
(** [this.method()] of an async method whose promise is dropped *)
Definition detach (p : Prog unit) : Prog unit := Detach p (Ret tt).
Definition skip : Prog unit := Ret tt.

(** What an observer of one run sees: a request with its answer, a commit of
    [runInAction], a direct write of a method ([Mutated]), an awaited call of
    another store, the rejection of a detached promise. *)
Inductive Event : Type :=
| Requested {R : Type} (c : NetCall R) (response : option R)
| Committed (before after : State)
| Mutated (before after : State)
| ExternalCall (name : string) (resolved : bool)
| UnhandledRejection (reason : string).

Inductive Outcome (A : Type) : Type :=
| Resolved (a : A)
| Rejected (reason : string).
Arguments Resolved {A} a.
Arguments Rejected {A} reason.

Definition unhandled {A} (o : Outcome A) : list Event :=
  match o with
  | Resolved _ => []
  | Rejected reason => [UnhandledRejection reason]
  end.

Record Run (A : Type) : Type := {
  trace : list Event;
  final : State;
  outcome : Outcome A;
}.
Arguments trace {A} r.
Arguments final {A} r.
Arguments outcome {A} r.

Definition after {A} (ev : Event) (r : Run A) : Run A :=
  {| trace := ev :: trace r; final := final r; outcome := outcome r |}.

(** One run of a program from a state.  A detached call contributes its
    events where it is made: every caller in this store returns right after
    detaching, so this is the order in which they happen; its rejection does
    not reject the caller. *)
Fixpoint run (srv : Server) (A : Type) (p : Prog A) (s : State) {struct p} : Run A :=
  match p with
  | Ret a => {| trace := []; final := s; outcome := Resolved a |}
  | Throw e => {| trace := []; final := s; outcome := Rejected e |}
  | Await c k =>
      match respond srv _ c with
      | Some r => after (Requested c (Some r)) (run srv A (k r) s)
      | None =>
          {| trace := [Requested c None]; final := s;
             outcome := Rejected "request failed" |}
      end
  | Read k => run srv A (k s) s
  | RunInAction f k => after (Committed s (f s)) (run srv A k (f s))
  | Assign f k => after (Mutated s (f s)) (run srv A k (f s))
  | AwaitExternal n k =>
      if external srv n
      then after (ExternalCall n true) (run srv A k s)
      else {| trace := [ExternalCall n false]; final := s;
              outcome := Rejected "external call failed" |}
  | Detach q k =>
      let r1 := run srv unit q s in
      let r2 := run srv A k (final r1) in
      {| trace := trace r1 ++ unhandled (outcome r1) ++ trace r2;
         final := final r2; outcome := outcome r2 |}
  end.
Arguments run srv {A} p s.

(** ** Array helpers used by the store *)

(** [arr.indexOf(x)]: the first position of [x], or [-1]. *)
Fixpoint indexOf_from (arr : list string) (x : string) (i : Z) : Z :=
  match arr with
  | [] => -1
  | y :: rest => if decide (y = x) then i else indexOf_from rest x (i + 1)
  end.

Definition indexOf (arr : list string) (x : string) : Z := indexOf_from arr x 0.

(** Where [arr.splice(start, ...)] starts: a negative [start] counts from
    the end of the array. *)
Definition splice_start (len start : Z) : Z :=
  if start <? 0 then Z.max (len + start) 0 else Z.min start len.

(** The array after [arr.splice(start, 1)]. *)
Definition splice_one {A} (arr : list A) (start : Z) : list A :=
  let from := Z.to_nat (splice_start (Z.of_nat (length arr)) start) in
  take from arr ++ drop (S from) arr.

(** Modelled from the spec: the helper [move] of [state/helpers] is not among
    the sources; the spec describes it as a local array splice, an in-memory
    list move of the element at [oldIndex] to [newIndex].  The store below
    takes [move] as a parameter; this definition instantiates it in
    examples. *)
Definition move_by_splice (arr : list string) (oldIndex newIndex : Z) : list string :=
  match jsindex arr oldIndex with
  | Some x =>
      let rest := splice_one arr oldIndex in
      let at_ := Z.to_nat (splice_start (Z.of_nat (length rest)) newIndex) in
      take at_ rest ++ x :: drop at_ rest
  | None => arr
  end.

(** [results.reduce((acc, item) => ({ ...acc, [item.id]: omit(item, 'heartbeat') }), {})] *)
Definition keyed_without_heartbeat (results : list AlertReceiveChannel)
    : gmap string AlertReceiveChannel :=
  foldl (fun acc item => <[arc_id item := omit_heartbeat item]> acc) ∅ results.

(** [response.reduce((acc, channelFilter) => ({ ...acc, [channelFilter.id]: channelFilter }), {})] *)
Definition keyed_channel_filters (response : list ChannelFilter)
    : gmap string ChannelFilter :=
  foldl (fun acc channelFilter => <[cf_id channelFilter := channelFilter]> acc) ∅ response.

(** The two reductions of [populateHearbeats]. *)
Definition heartbeats_of (alertReceiveChannels : list AlertReceiveChannel)
    : gmap string Heartbeat :=
  foldl (fun acc alertReceiveChannel =>
           match truthy (arc_heartbeat alertReceiveChannel) with
           | Some hb => <[hb_id hb := hb]> acc
           | None => acc
           end) ∅ alertReceiveChannels.

Definition heartbeat_ids_of (alertReceiveChannels : list AlertReceiveChannel)
    : gmap string string :=
  foldl (fun acc alertReceiveChannel =>
           match truthy (arc_heartbeat alertReceiveChannel) with
           | Some hb => <[arc_id alertReceiveChannel := hb_id hb]> acc
           | None => acc
           end) ∅ alertReceiveChannels.

(** The entry, if any, that an integration contributes to each of the two
    reductions. *)
Definition heartbeat_entry (alertReceiveChannel : AlertReceiveChannel)
    : option (string * Heartbeat) :=
  match truthy (arc_heartbeat alertReceiveChannel) with
  | Some hb => Some (hb_id hb, hb)
  | None => None
  end.

Definition heartbeat_id_entry (alertReceiveChannel : AlertReceiveChannel)
    : option (string * string) :=
  match truthy (arc_heartbeat alertReceiveChannel) with
  | Some hb => Some (arc_id alertReceiveChannel, hb_id hb)
  | None => None
  end.

(** The reduction of [fetchConnectedContactPoints]. *)
Definition contact_points_of (payloads : list ContactPointsPayload) : list ContactPoint :=
  foldl (fun acc payload =>
           app acc (fmap (fun cp =>
                            {| dataSourceName := cpp_name payload;
                               dataSourceId := cpp_uid payload;
                               contactPoint := ccp_name cp;
                               notificationConnected := ccp_notification_connected cp |})
                         (cpp_contact_points payload))) [] payloads.

(** The body of the PUT of [saveAlertReceiveChannel]:
    four members of the current integration, overridden by the payload. *)
Definition update_body (currentIntegration : AlertReceiveChannel) (payload : UpdatePayload)
    : AlertReceiveChannelUpdate :=
  {| upd_description_short :=
       default (arc_description_short currentIntegration) (pl_description_short payload);
     upd_verbal_name :=
       default (arc_verbal_name currentIntegration) (pl_verbal_name payload);
     upd_allow_source_based_resolving :=
       default (arc_allow_source_based_resolving currentIntegration)
               (pl_allow_source_based_resolving payload);
     upd_alert_group_labels :=
       default (arc_alert_group_labels currentIntegration) (pl_alert_group_labels payload) |}.

Definition request (m : option Method) : RequestConfig :=
  {| method := m; params := []; data := NoData; withCredentials := false |}.

(** The argument [query: any = ''] of [fetchItems]. *)
Inductive Query : Type :=
| QueryString (search : string)
| QueryObject (query : list (string * string)).

(** ** AlertReceiveChannelStore

    One definition per method, statement by statement.

    [create], [update] and [saveAlertReceiveChannel] are decorated with
    [WithGlobalNotification], which is not among the sources.  Their
    definitions are the method bodies that the decorator wraps: the requests
    and the writes of a run are those of the body, [Resolved] is what the body
    returns, and [Rejected] is the exception the body raises into the
    decorator; what the decorated method then does with that exception, beyond
    the toast its options name, is the decorator's. *)

Section AlertReceiveChannelStore.

(** [move] of [state/helpers]. *)
Variable move : list string -> Z -> Z -> list string.

Definition create (data : AlertReceiveChannel) (skipErrorHandling : option bool)
    : Prog AlertReceiveChannel :=
  result ← await (onCallApi_POST_alert_receive_channels skipErrorHandling data);
  awaitExternal "organizationStore.loadCurrentOrganization";;
  mret result.

Definition update (id : string) (data : AlertReceiveChannelUpdate)
    (skipErrorHandling : option bool) : Prog AlertReceiveChannel :=
  result ← await (onCallApi_PUT_alert_receive_channels_id skipErrorHandling id data);
  awaitExternal "organizationStore.loadCurrentOrganization";;
  mret result.

Definition populateHearbeats (alertReceiveChannels : list AlertReceiveChannel)
    : Prog unit :=
  let heartbeats := heartbeats_of alertReceiveChannels in
  runInAction (fun s =>
    set_heartbeatStore_items (heartbeats ∪ heartbeatStore_items s) s);;
  let alertReceiveChannelToHeartbeat' := heartbeat_ids_of alertReceiveChannels in
  runInAction (fun s =>
    set_alertReceiveChannelToHeartbeat
      (alertReceiveChannelToHeartbeat' ∪ alertReceiveChannelToHeartbeat s) s).

Definition fetchItemById (id : string) (skipErrorHandling : bool)
    : Prog AlertReceiveChannel :=
  alertReceiveChannel ←
    await (onCallApi_GET_alert_receive_channels_id (Some skipErrorHandling) id);
  runInAction (fun s =>
    set_items
      (<[id := with_heartbeat (or_null (arc_heartbeat alertReceiveChannel))
                              alertReceiveChannel]> (items s)) s);;
  populateHearbeats [alertReceiveChannel];;
  mret alertReceiveChannel.

Definition fetchCounters : Prog unit :=
  data ← await onCallApi_GET_counters;
  runInAction (fun s => set_counters data s).

Definition fetchItems (query : Query) : Prog (list AlertReceiveChannel) :=
  let params :=
    match query with
    | QueryString search => SearchParams search
    | QueryObject q => RawParams q
    end in
  page ← await (onCallApi_GET_alert_receive_channels params);
  let results := page_results page in
  runInAction (fun s => set_items (keyed_without_heartbeat results ∪ items s) s);;
  populateHearbeats results;;
  runInAction (fun s => set_searchResult (Some (arc_id <$> results)) s);;
  detach fetchCounters;;
  mret results.

(** [invalidateFn] is an optional callback; [Some b] is a callback that
    returns [b] when it is called. *)
Definition fetchPaginatedItems (filters : list (string * string)) (page : Z)
    (shouldFetchCounters : bool) (invalidateFn : option bool)
    : Prog (option (list AlertReceiveChannel)) :=
  pg ← await (onCallApi_GET_alert_receive_channels (PagedQuery filters page));
  let results := page_results pg in
  if default false invalidateFn then mret None
  else
    runInAction (fun s => set_items (keyed_without_heartbeat results ∪ items s) s);;
    populateHearbeats results;;
    runInAction (fun s =>
      set_paginatedSearchResult
        {| psr_count := page_count pg;
           psr_results := Some (arc_id <$> results);
           psr_page_size := page_page_size pg |} s);;
    (if shouldFetchCounters then detach fetchCounters else skip);;
    mret (Some results).

Definition fetchChannelFilters (alertReceiveChannelId : string) (isOverwrite : bool)
    : Prog unit :=
  response ←
    await (makeRequest ExpectChannelFilters "/channel_filters/"
             {| method := None;
                params := [("alert_receive_channel", Some alertReceiveChannelId)];
                data := NoData; withCredentials := false |});
  let channelFilters' := keyed_channel_filters response in
  runInAction (fun s => set_channelFilters (channelFilters' ∪ channelFilters s) s);;
  (if isOverwrite
   then runInAction (fun s => set_channelFilters channelFilters' s)
   else skip);;
  runInAction (fun s =>
    set_channelFilterIds
      (<[alertReceiveChannelId := cf_id <$> response]> (channelFilterIds s)) s).

Definition saveChannelFilter (channelFilterId : string) (data : ChannelFilterPatch)
    : Prog ChannelFilter :=
  response ←
    await (makeRequest ExpectChannelFilter
             ("/channel_filters/" +:+ channelFilterId +:+ "/")
             {| method := Some PUT; params := [];
                data := ChannelFilterData data; withCredentials := false |});
  runInAction (fun s =>
    set_channelFilters (<[cf_id response := response]> (channelFilters s)) s);;
  mret response.

(** Reading [this.channelFilterIds[alertReceiveChannelId][oldIndex]] throws
    when the parent has no list; an index outside the list reads
    [undefined].  Indices are integral numbers. *)
Definition moveChannelFilterToPosition (alertReceiveChannelId : string)
    (oldIndex newIndex : Z) : Prog unit :=
  Read (fun s0 =>
    match channelFilterIds s0 !! alertReceiveChannelId with
    | None => Throw "TypeError"
    | Some ids =>
        let channelFilterId := jsindex ids oldIndex in
        assign (fun s =>
          set_channelFilterIds
            (<[alertReceiveChannelId := move ids oldIndex newIndex]>
               (channelFilterIds s)) s);;
        await (makeRequest ExpectIgnored
                 ("/channel_filters/" +:+ interpolate channelFilterId
                    +:+ "/move_to_position/?position=" +:+ pretty newIndex)
                 (request (Some PUT)));;
        detach (fetchChannelFilters alertReceiveChannelId true)
    end).

(** [channelFilter.alert_receive_channel] throws when the filter is not in
    [channelFilters], and [.splice] throws when its parent has no list. *)
Definition deleteChannelFilter (channelFilterId : string) : Prog unit :=
  Read (fun s0 =>
    match channelFilters s0 !! channelFilterId with
    | None => Throw "TypeError"
    | Some channelFilter =>
        let parent := cf_alert_receive_channel channelFilter in
        match channelFilterIds s0 !! parent with
        | None => Throw "TypeError"
        | Some ids =>
            assign (fun s =>
              set_channelFilterIds
                (<[parent := splice_one ids (indexOf ids channelFilterId)]>
                   (channelFilterIds s)) s);;
            await (makeRequest ExpectIgnored
                     ("/channel_filters/" +:+ channelFilterId)
                     (request (Some DELETE)));;
            fetchChannelFilters parent true
        end
    end).

Definition fetchAlertReceiveChannelOptions : Prog unit :=
  data ← await onCallApi_GET_integration_options;
  runInAction (fun s => set_alertReceiveChannelOptions data s).

Definition saveAlertReceiveChannel (id : string) (payload : UpdatePayload) : Prog unit :=
  Read (fun s0 =>
    match items s0 !! id with
    | None => Throw "TypeError"
    | Some currentIntegration =>
        data ← await (onCallApi_PUT_alert_receive_channels_id None id
                        (update_body currentIntegration payload));
        runInAction (fun s => set_items (<[id := data]> (items s)) s)
    end).

Definition fetchTemplates (alertReceiveChannelId : string) (alertGroupId : option string)
    : Prog unit :=
  response ←
    await (makeRequest ExpectTemplates
             ("/alert_receive_channel_templates/" +:+ alertReceiveChannelId +:+ "/")
             {| method := None; params := [("alert_group_id", alertGroupId)];
                data := NoData; withCredentials := true |});
  runInAction (fun s =>
    set_templates (<[alertReceiveChannelId := response]> (templates s)) s).

Definition saveTemplates (alertReceiveChannelId : string) (data : AlertTemplatesDTO)
    : Prog unit :=
  response ←
    await (makeRequest ExpectTemplates
             ("/alert_receive_channel_templates/" +:+ alertReceiveChannelId +:+ "/")
             {| method := Some PUT; params := [];
                data := TemplatesData data; withCredentials := true |});
  runInAction (fun s =>
    set_templates (<[alertReceiveChannelId := response]> (templates s)) s).

Definition fetchConnectedContactPoints (alertReceiveChannelId : string) : Prog unit :=
  data ← await (onCallApi_GET_connected_contact_points alertReceiveChannelId);
  runInAction (fun s =>
    set_connectedContactPoints
      (<[alertReceiveChannelId := contact_points_of data]>
         (connectedContactPoints s)) s).

Definition fetchCountersForIntegration (id : string)
    : Prog (gmap string AlertReceiveChannelCounters) :=
  data ← await (onCallApi_GET_counters_id id);
  runInAction (fun s =>
    set_counters (<[id := spread_counters (data !! id)]> (counters s)) s);;
  mret data.

(** The asynchronous methods of the store, with their arguments. *)
Inductive Operation : Type :=
| OpCreate (data : AlertReceiveChannel) (skipErrorHandling : option bool)
| OpUpdate (id : string) (data : AlertReceiveChannelUpdate)
           (skipErrorHandling : option bool)
| OpFetchItemById (id : string) (skipErrorHandling : bool)
| OpFetchItems (query : Query)
| OpFetchPaginatedItems (filters : list (string * string)) (page : Z)
    (shouldFetchCounters : bool) (invalidateFn : option bool)
| OpFetchChannelFilters (alertReceiveChannelId : string) (isOverwrite : bool)
| OpSaveChannelFilter (channelFilterId : string) (data : ChannelFilterPatch)
| OpMoveChannelFilterToPosition (alertReceiveChannelId : string)
    (oldIndex newIndex : Z)
| OpDeleteChannelFilter (channelFilterId : string)
| OpFetchAlertReceiveChannelOptions
| OpSaveAlertReceiveChannel (id : string) (payload : UpdatePayload)
| OpFetchTemplates (alertReceiveChannelId : string) (alertGroupId : option string)
| OpSaveTemplates (alertReceiveChannelId : string) (data : AlertTemplatesDTO)
| OpFetchConnectedContactPoints (alertReceiveChannelId : string)
| OpFetchCounters
| OpFetchCountersForIntegration (id : string).

(** Calling a method and dropping what its promise resolves to. *)
Definition perform (op : Operation) : Prog unit :=
  match op with
  | OpCreate data sk => create data sk;; skip
  | OpUpdate id data sk => update id data sk;; skip
  | OpFetchItemById id sk => fetchItemById id sk;; skip
  | OpFetchItems query => fetchItems query;; skip
  | OpFetchPaginatedItems filters page should invalidateFn =>
      fetchPaginatedItems filters page should invalidateFn;; skip
  | OpFetchChannelFilters id isOverwrite => fetchChannelFilters id isOverwrite
  | OpSaveChannelFilter id data => saveChannelFilter id data;; skip
  | OpMoveChannelFilterToPosition id oldIndex newIndex =>
      moveChannelFilterToPosition id oldIndex newIndex
  | OpDeleteChannelFilter id => deleteChannelFilter id
  | OpFetchAlertReceiveChannelOptions => fetchAlertReceiveChannelOptions
  | OpSaveAlertReceiveChannel id payload => saveAlertReceiveChannel id payload
  | OpFetchTemplates id alertGroupId => fetchTemplates id alertGroupId
  | OpSaveTemplates id data => saveTemplates id data
  | OpFetchConnectedContactPoints id => fetchConnectedContactPoints id
  | OpFetchCounters => fetchCounters
  | OpFetchCountersForIntegration id => fetchCountersForIntegration id;; skip
  end.

End AlertReceiveChannelStore.

(** ** Observations on traces and states *)

Definition is_mutation (ev : Event) : bool :=
  match ev with
  | Committed _ _ | Mutated _ _ => true
  | _ => false
  end.

Definition is_answer (ev : Event) : bool :=
  match ev with
  | Requested _ (Some _) => true
  | _ => false
  end.

(** Every change of state in the trace was made inside a transactional
    boundary.  A commit of [runInAction] always is.  A direct write is as long
    as nothing has been awaited before it: the constructor calls
    [makeAutoObservable(this, undefined, { autoBind: true })], which wraps
    every method in an action that lasts until the method first awaits.
    [in_action] tells whether the trace so far is still inside that action;
    a direct write after an await counts as unprotected. *)
Fixpoint transactional_from (in_action : bool) (tr : list Event) : bool :=
  match tr with
  | [] => true
  | Mutated _ _ :: rest => in_action && transactional_from in_action rest
  | Requested _ _ :: rest => transactional_from false rest
  | ExternalCall _ _ :: rest => transactional_from false rest
  | _ :: rest => transactional_from in_action rest
  end.

Definition transactional (tr : list Event) : bool := transactional_from true tr.

(** No change of state precedes the first answered request. *)
Fixpoint mutations_follow_response (tr : list Event) : bool :=
  match tr with
  | [] => true
  | ev :: rest =>
      if is_answer ev then true
      else if is_mutation ev then false
      else mutations_follow_response rest
  end.

(** No request of the trace was answered. *)
Definition no_response (tr : list Event) : bool :=
  forallb (fun ev => negb (is_answer ev)) tr.

(** Method and path of the requests of a trace, in order. *)
Fixpoint requests (tr : list Event) : list (Method * string) :=
  match tr with
  | [] => []
  | Requested c _ :: rest => (method_of c, path_of c) :: requests rest
  | _ :: rest => requests rest
  end.

(** The per-resource path of a channel filter, in the spec's words:
    [/channel_filters/{id}/]. *)
Definition channel_filter_path (id : string) : string :=
  "/channel_filters/" +:+ id +:+ "/".

(** The operations that edit [channelFilterIds] locally before their
    request. *)
Definition optimistic (op : Operation) : bool :=
  match op with
  | OpMoveChannelFilterToPosition _ _ _ | OpDeleteChannelFilter _ => true
  | _ => false
  end.

(** The operations that reload the channel filters in overwrite mode. *)
Definition reloads_in_overwrite_mode (op : Operation) : bool :=
  match op with
  | OpMoveChannelFilterToPosition _ _ _ | OpDeleteChannelFilter _
  | OpFetchChannelFilters _ true => true
  | _ => false
  end.

(** The operations that may replace [counters] by a fresh snapshot. *)
Definition refetches_counters (op : Operation) : bool :=
  match op with
  | OpFetchCounters | OpFetchItems _ | OpFetchPaginatedItems _ _ true _ => true
  | _ => false
  end.

(** No key of a keyed mapping of the store is dropped between [s] and [s'];
    the two flags exempt [channelFilters] and [counters]. *)
Definition keeps_keys (may_drop_channelFilters may_drop_counters : bool)
    (s s' : State) : Prop :=
  dom (items s) ⊆ dom (items s')
  /\ dom (channelFilterIds s) ⊆ dom (channelFilterIds s')
  /\ dom (alertReceiveChannelToHeartbeat s) ⊆ dom (alertReceiveChannelToHeartbeat s')
  /\ dom (actions s) ⊆ dom (actions s')
  /\ dom (templates s) ⊆ dom (templates s')
  /\ dom (connectedContactPoints s) ⊆ dom (connectedContactPoints s')
  /\ (may_drop_channelFilters = false ->
        dom (channelFilters s) ⊆ dom (channelFilters s'))
  /\ (may_drop_counters = false -> dom (counters s) ⊆ dom (counters s')).

(** What a list fetch that received [results] leaves in the state: the
    entries it writes into [items] have no [heartbeat] member; the heartbeats
    are in the heartbeat store and in [alertReceiveChannelToHeartbeat]. *)
Definition stored_without_heartbeat (results : list AlertReceiveChannel)
    (s s' : State) : Prop :=
  items s' = keyed_without_heartbeat results ∪ items s
  /\ (forall k e,
        keyed_without_heartbeat results !! k = Some e ->
        arc_heartbeat e = Missing
        /\ exists item, item ∈ results /\ arc_id item = k /\ e = omit_heartbeat item)
  /\ (forall item, item ∈ results ->
        exists e, items s' !! arc_id item = Some e /\ arc_heartbeat e = Missing)
  /\ (forall item hb, item ∈ results -> arc_heartbeat item = Val hb ->
        is_Some (heartbeatStore_items s' !! hb_id hb)
        /\ is_Some (alertReceiveChannelToHeartbeat s' !! arc_id item)).

Definition Method_eqb (m1 m2 : Method) : bool :=
  match m1, m2 with
  | GET, GET | POST, POST | PUT, PUT | DELETE, DELETE => true
  | _, _ => false
  end.

(** Some request of the trace uses the method [m]. *)
Definition uses (m : Method) (tr : list Event) : bool :=
  existsb (fun mp => Method_eqb (fst mp) m) (requests tr).

(** The operations whose method is decorated with [WithGlobalNotification]. *)
Definition decorated (op : Operation) : bool :=
  match op with
  | OpCreate _ _ | OpUpdate _ _ _ | OpSaveAlertReceiveChannel _ _ => true
  | _ => false
  end.

(** The operations named [fetch...]. *)
Definition is_fetch (op : Operation) : bool :=
  match op with
  | OpFetchItemById _ _ | OpFetchItems _ | OpFetchPaginatedItems _ _ _ _
  | OpFetchChannelFilters _ _ | OpFetchAlertReceiveChannelOptions
  | OpFetchTemplates _ _ | OpFetchConnectedContactPoints _
  | OpFetchCounters | OpFetchCountersForIntegration _ => true
  | _ => false
  end.

(** ** GoogleConnector

    The view of the Google account of a user, as the tree of elements it
    renders.  [userStore.items] and [userStore.currentUserPk] are what it
    reads of the store; the two handlers are what its buttons can call. *)

Record User : Type := { has_google_oauth2_connected : bool }.

Record UserStore : Type := {
  userStore_items : gmap string User;
  currentUserPk : option string;
}.

Inductive UserAction : Type := UserSettingsWrite.

Inductive Handler : Type :=
| userStore_disconnectGoogle
| onTabChange_GoogleCalendar.

(** The [variant] a button is given, when it is given one. *)
Inductive ButtonVariant : Type := destructive.

Inductive Element : Type :=
| Div (child : Element)
| InlineField (label : string) (labelWidth : Z) (child : Element)
| HorizontalGroup (spacing : string) (child : Element)
| WithPermissionControlTooltip (userAction : UserAction) (child : Element)
| WithConfirm (title confirmText : string) (child : Element)
| Button (disabled : bool) (variant : option ButtonVariant) (onClick : Handler)
    (text : string).

(** [None]: [userStore.items[id]] is [undefined] and reading
    [storeUser.has_google_oauth2_connected] throws. *)
Definition GoogleConnector (id : string) (userStore : UserStore) : option Element :=
  match userStore_items userStore !! id with
  | None => None
  | Some storeUser =>
      let isCurrentUser := bool_decide (Some id = currentUserPk userStore) in
      Some
        (Div
           (InlineField "Google Account" 15
              (if has_google_oauth2_connected storeUser
               then
                 HorizontalGroup "xs"
                   (WithPermissionControlTooltip UserSettingsWrite
                      (WithConfirm "Are you sure to disconnect your Google account?"
                         "Disconnect"
                         (Button (negb isCurrentUser) (Some destructive)
                            userStore_disconnectGoogle "Disconnect")))
               else
                 WithPermissionControlTooltip UserSettingsWrite
                   (Button (negb isCurrentUser) None
                      onTabChange_GoogleCalendar "Connect account"))))
  end.

(** A button of a tree, with what encloses it. *)
Record PlacedButton : Type := {
  pb_disabled : bool;
  pb_onClick : Handler;
  pb_text : string;
  pb_confirmed : bool;
  pb_permission : option UserAction;
}.

(** The buttons of a tree, each with whether a [WithConfirm] and which
    [WithPermissionControlTooltip] enclose it. *)
Fixpoint placed_buttons (confirmed : bool) (permission : option UserAction)
    (e : Element) : list PlacedButton :=
  match e with
  | Div child => placed_buttons confirmed permission child
  | InlineField _ _ child => placed_buttons confirmed permission child
  | HorizontalGroup _ child => placed_buttons confirmed permission child
  | WithPermissionControlTooltip userAction child =>
      placed_buttons confirmed (Some userAction) child
  | WithConfirm _ _ child => placed_buttons true permission child
  | Button disabled _ onClick text =>
      [ {| pb_disabled := disabled; pb_onClick := onClick; pb_text := text;
           pb_confirmed := confirmed; pb_permission := permission |} ]
  end.

(** ** A concrete server and concrete states, for examples *)

Record Answers : Type := {
  ans_channel : option AlertReceiveChannel;
  ans_page : option Page;
  ans_channel_filters : option (list ChannelFilter);
  ans_channel_filter : option ChannelFilter;
  ans_counters : option (gmap string AlertReceiveChannelCounters);
  ans_ignored : option unit;
}.

Definition answer (a : Answers) (R : Type) (c : NetCall R) : option R :=
  match c in NetCall R return option R with
  | onCallApi_POST_alert_receive_channels _ _ => ans_channel a
  | onCallApi_PUT_alert_receive_channels_id _ _ _ => ans_channel a
  | onCallApi_GET_alert_receive_channels_id _ _ => ans_channel a
  | onCallApi_GET_alert_receive_channels _ => ans_page a
  | onCallApi_GET_integration_options => None
  | onCallApi_GET_connected_contact_points _ => None
  | onCallApi_GET_counters => ans_counters a
  | onCallApi_GET_counters_id _ => ans_counters a
  | makeRequest e _ _ =>
      match e return option (expected e) with
      | ExpectChannelFilters => ans_channel_filters a
      | ExpectChannelFilter => ans_channel_filter a
      | ExpectTemplates => None
      | ExpectIgnored => ans_ignored a
      end
  end.

Definition server_answering (a : Answers) : Server :=
  {| respond := answer a; external := fun _ => true |}.

(** A server that fails every request. *)
Definition server_down : Server :=
  {| respond := fun _ _ => None; external := fun _ => false |}.

Definition heartbeat_H1 : Heartbeat :=
  {| hb_id := "H1"; hb_alert_receive_channel := "A";
     hb_timeout_seconds := 60; hb_status := true |}.

Definition channel_A : AlertReceiveChannel :=
  {| arc_id := "A"; arc_description_short := None;
     arc_verbal_name := Some "Grafana Alerting";
     arc_allow_source_based_resolving := true;
     arc_alert_group_labels := [];
     arc_heartbeat := Val heartbeat_H1 |}.

Definition channel_B : AlertReceiveChannel :=
  {| arc_id := "B"; arc_description_short := Some "webhook";
     arc_verbal_name := Some "Webhook";
     arc_allow_source_based_resolving := false;
     arc_alert_group_labels := [];
     arc_heartbeat := Missing |}.

Definition filter_F1 : ChannelFilter :=
  {| cf_id := "F1"; cf_alert_receive_channel := "A";
     cf_filtering_term := "severity=critical"; cf_is_default := false |}.

Definition filter_F2 : ChannelFilter :=
  {| cf_id := "F2"; cf_alert_receive_channel := "A";
     cf_filtering_term := ""; cf_is_default := true |}.

Definition filter_G1 : ChannelFilter :=
  {| cf_id := "G1"; cf_alert_receive_channel := "B";
     cf_filtering_term := ""; cf_is_default := true |}.

(** A store that has loaded the routes of the integrations A and B. *)
Definition loaded : State :=
  set_channelFilterIds {[ "A" := ["F1"; "F2"]; "B" := ["G1"] ]}
    (set_channelFilters
       {[ "F1" := filter_F1; "F2" := filter_F2; "G1" := filter_G1 ]} initial).

(** A server that answers every request the examples make; the routes of A
    come back in the order F2, F1. *)
Definition server_up : Server :=
  server_answering
    {| ans_channel := Some channel_A;
       ans_page :=
         Some {| page_count := Some 2; page_results := [channel_A; channel_B];
                 page_page_size := Some 25 |};
       ans_channel_filters := Some [filter_F2; filter_F1];
       ans_channel_filter := Some filter_F1;
       ans_counters := Some ∅;
       ans_ignored := Some tt |}.

(** A server on which the repositioning and deleting requests fail. *)
Definition server_refusing_writes : Server :=
  server_answering
    {| ans_channel := None; ans_page := None;
       ans_channel_filters := Some [filter_F2; filter_F1];
       ans_channel_filter := None; ans_counters := None;
       ans_ignored := None |}.

(** A server like [server_up] whose list of routes is [filters]. *)
Definition server_routes (filters : list ChannelFilter) : Server :=
  server_answering
    {| ans_channel := Some channel_A;
       ans_page :=
         Some {| page_count := Some 2; page_results := [channel_A; channel_B];
                 page_page_size := Some 25 |};
       ans_channel_filters := Some filters;
       ans_channel_filter := Some filter_F1;
       ans_counters := Some ∅;
       ans_ignored := Some tt |}.

Definition templates_A : list AlertTemplatesDTO :=
  [ {| tpl_fields := [("title_template", "{{ payload.title }}")] |} ].

Definition contact_points_payloads : list ContactPointsPayload :=
  [ {| cpp_name := "Mimir"; cpp_uid := "ds1";
       cpp_contact_points :=
         [ {| ccp_name := "oncall"; ccp_notification_connected := true |};
           {| ccp_name := "email"; ccp_notification_connected := false |} ] |};
    {| cpp_name := "Loki"; cpp_uid := "ds2"; cpp_contact_points := [] |};
    {| cpp_name := "Tempo"; cpp_uid := "ds3";
       cpp_contact_points :=
         [ {| ccp_name := "pager"; ccp_notification_connected := true |} ] |} ].

Definition counters_A : AlertReceiveChannelCounters :=
  {| alerts_count := Some 3; alert_groups_count := Some 1 |}.

Definition integration_options : list IntegrationOption :=
  [ {| io_value := "grafana_alerting"; io_display_name := "Grafana Alerting";
       io_featured := true |} ].

(** A server that answers every endpoint. *)
Definition answer_all (R : Type) (c : NetCall R) : option R :=
  match c in NetCall R return option R with
  | onCallApi_POST_alert_receive_channels _ _ => Some channel_A
  | onCallApi_PUT_alert_receive_channels_id _ _ _ => Some channel_B
  | onCallApi_GET_alert_receive_channels_id _ _ => Some channel_A
  | onCallApi_GET_alert_receive_channels _ =>
      Some {| page_count := Some 2; page_results := [channel_A; channel_B];
              page_page_size := Some 25 |}
  | onCallApi_GET_integration_options => Some integration_options
  | onCallApi_GET_connected_contact_points _ => Some contact_points_payloads
  | onCallApi_GET_counters => Some {[ "A" := counters_A ]}
  | onCallApi_GET_counters_id _ => Some {[ "A" := counters_A ]}
  | makeRequest e _ _ =>
      match e return option (expected e) with
      | ExpectChannelFilters => Some [filter_F2; filter_F1]
      | ExpectChannelFilter => Some filter_F1
      | ExpectTemplates => Some templates_A
      | ExpectIgnored => Some tt
      end
  end.

Definition server_full : Server :=
  {| respond := answer_all; external := fun _ => true |}.

(** A server that answers every request while the organization store fails
    to reload. *)
Definition server_without_organization : Server :=
  {| respond := answer_all; external := fun _ => false |}.

(** A server that lists the integrations and fails the counters. *)
Definition server_without_counters : Server :=
  server_answering
    {| ans_channel := Some channel_A;
       ans_page :=
         Some {| page_count := Some 2; page_results := [channel_A; channel_B];
                 page_page_size := Some 25 |};
       ans_channel_filters := None; ans_channel_filter := None;
       ans_counters := None; ans_ignored := None |}.

(** * Properties *)

(** ** Running the store's methods *)

(** Case analysis on the answer to the next request of a run. *)
Ltac case_respond :=
  match goal with
  | |- context [match respond ?srv ?R ?c with _ => _ end] =>
      destruct (respond srv R c) eqn:?
  end.

(** Case analysis on whether the next awaited external call resolves. *)
Ltac case_external :=
  match goal with
  | |- context [if external ?srv ?n then _ else _] =>
      destruct (external srv n) eqn:?
  end.

(** Case analysis on everything a run of a method branches on. *)
Ltac run_cases :=
  repeat
    (cbn;
     first
       [ case_respond
       | case_external
       | match goal with
         | |- context [match ?m !! ?k with _ => _ end] => destruct (m !! k) eqn:?
         end ]).

(** ** Route condition wording *)

Section RouteConditions.
Import CommonIntegrationHelper.

Lemma wording_cases (channelFilters : list string) (routeIndex : Z) :
  getRouteConditionWording channelFilters routeIndex =
    if decide (routeIndex = Z.of_nat (length channelFilters) - 1) then Default
    else if decide (routeIndex = 0) then If else Else.
Proof.
  unfold getRouteConditionWording, keys_length.
  destruct (Z.eqb_spec routeIndex (Z.of_nat (length channelFilters) - 1));
    destruct (Z.eqb_spec routeIndex 0);
    repeat case_decide; congruence.
Qed.

(** C1: the route is classified by its position: 'Default' at the last
    position of the array, otherwise 'If' at index 0, otherwise 'Else'. *)
Theorem getRouteConditionWording_by_position
    (channelFilters : list string) (routeIndex : Z) :
  let last_position := Z.of_nat (length channelFilters) - 1 in
  (routeIndex = last_position ->
     getRouteConditionWording channelFilters routeIndex = Default)
  /\ (routeIndex = 0 -> routeIndex <> last_position ->
        getRouteConditionWording channelFilters routeIndex = If)
  /\ (routeIndex <> 0 -> routeIndex <> last_position ->
        getRouteConditionWording channelFilters routeIndex = Else).
Proof.
  intros last_position. subst last_position. rewrite wording_cases.
  repeat split; intros; repeat case_decide; congruence.
Qed.

(** C8: with exactly one route, index 0 is worded 'Default', not 'If'. *)
Theorem getRouteConditionWording_single_route (channelFilters : list string) :
  length channelFilters = 1%nat ->
  getRouteConditionWording channelFilters 0 = Default
  /\ getRouteConditionWording channelFilters 0 <> If.
Proof.
  intros Hlen. rewrite wording_cases, Hlen. simpl.
  split; [reflexivity | discriminate].
Qed.

(** C9: the tooltip is the default-route sentence exactly when the
    wording of the same array and index is 'Default', whatever the
    labels. *)
Theorem tooltip_default_iff_wording_default
    (channelFilters : list string) (routeIndex : Z)
    (labels : option (list LabelPair)) :
  getRouteConditionTooltipWording channelFilters routeIndex labels
    = default_route_sentence
  <-> getRouteConditionWording channelFilters routeIndex = Default.
Proof.
  unfold getRouteConditionTooltipWording, getRouteConditionWording.
  destruct (routeIndex =? keys_length channelFilters - 1).
  - split; reflexivity.
  - split.
    + destruct (has_labels labels); intros H; vm_compute in H; discriminate H.
    + destruct (routeIndex =? 0); discriminate.
Qed.

End RouteConditions.

Lemma getRouteConditionWording_by_position_witness :
  CommonIntegrationHelper.getRouteConditionWording ["F1"; "F2"; "F3"] 2
    = CommonIntegrationHelper.Default
  /\ CommonIntegrationHelper.getRouteConditionWording ["F1"; "F2"; "F3"] 0
    = CommonIntegrationHelper.If
  /\ CommonIntegrationHelper.getRouteConditionWording ["F1"; "F2"; "F3"] 1
    = CommonIntegrationHelper.Else.
Proof.
  split; [| split].
  - apply (getRouteConditionWording_by_position ["F1"; "F2"; "F3"] 2). reflexivity.
  - apply (getRouteConditionWording_by_position ["F1"; "F2"; "F3"] 0);
      [reflexivity | discriminate].
  - apply (getRouteConditionWording_by_position ["F1"; "F2"; "F3"] 1); discriminate.
Defined.

Lemma getRouteConditionWording_single_route_witness :
  CommonIntegrationHelper.getRouteConditionWording ["F1"] 0
    = CommonIntegrationHelper.Default
  /\ CommonIntegrationHelper.getRouteConditionWording ["F1"] 0
    <> CommonIntegrationHelper.If.
Proof.
  apply (getRouteConditionWording_single_route ["F1"]). reflexivity.
Defined.

(** ** Objects built by [reduce] *)

Section KeyedReduce.
Context {A V : Type}.
Variable step : gmap string V -> A -> gmap string V.
Variable entry : A -> option (string * V).
Hypothesis step_entry : forall acc x,
  step acc x = match entry x with
               | Some (k, v) => <[k := v]> acc
               | None => acc
               end.

Lemma reduce_snoc (l : list A) (x : A) :
  foldl step ∅ (l ++ [x]) = step (foldl step ∅ l) x.
Proof. by rewrite foldl_app. Qed.

(** Every entry of the object comes from an element of the array. *)
Lemma reduce_lookup_Some (l : list A) (k : string) (v : V) :
  foldl step ∅ l !! k = Some v -> exists x, x ∈ l /\ entry x = Some (k, v).
Proof.
  induction l as [| x l IH] using rev_ind; intros Hk.
  - simpl in Hk. by rewrite lookup_empty in Hk.
  - rewrite reduce_snoc, step_entry in Hk.
    destruct (entry x) as [[k' v'] |] eqn:Hx.
    + destruct (decide (k' = k)) as [-> | Hne].
      * rewrite lookup_insert_eq in Hk. injection Hk as ->.
        exists x. split; [apply elem_of_app; right; apply list_elem_of_here | done].
      * rewrite lookup_insert_ne in Hk by done.
        destruct (IH Hk) as (y & Hy & Hey). exists y.
        split; [apply elem_of_app; by left | done].
    + destruct (IH Hk) as (y & Hy & Hey). exists y.
      split; [apply elem_of_app; by left | done].
Qed.

(** Every element of the array that yields an entry has its key in the
    object. *)
Lemma reduce_lookup_is_Some (l : list A) (x : A) (k : string) (v : V) :
  x ∈ l -> entry x = Some (k, v) -> is_Some (foldl step ∅ l !! k).
Proof.
  induction l as [| y l IH] using rev_ind; intros Hin Hx.
  - set_solver.
  - rewrite reduce_snoc, step_entry.
    destruct (entry y) as [[k' v'] |] eqn:Hy.
    + destruct (decide (k' = k)) as [-> | Hne].
      * rewrite lookup_insert_eq. by eexists.
      * rewrite lookup_insert_ne by done. apply IH; [| done].
        apply elem_of_app in Hin as [Hin | Hin]; [done |].
        apply list_elem_of_singleton in Hin as ->. congruence.
    + apply IH; [| done].
      apply elem_of_app in Hin as [Hin | Hin]; [done |].
      apply list_elem_of_singleton in Hin as ->. congruence.
Qed.

(** A key whose entries in the array all carry the same value holds that
    value. *)
Lemma reduce_lookup_unique (l : list A) (x : A) (k : string) (v : V) :
  x ∈ l -> entry x = Some (k, v) ->
  (forall y v', y ∈ l -> entry y = Some (k, v') -> v' = v) ->
  foldl step ∅ l !! k = Some v.
Proof.
  intros Hin Hx Huniq.
  destruct (reduce_lookup_is_Some l x k v Hin Hx) as [w Hw].
  destruct (reduce_lookup_Some l k w Hw) as (y & Hy & Hey).
  rewrite Hw. f_equal. by eapply Huniq.
Qed.
End KeyedReduce.

Lemma keyed_channel_filters_entry (acc : gmap string ChannelFilter)
    (channelFilter : ChannelFilter) :
  <[cf_id channelFilter := channelFilter]> acc =
    match Some (cf_id channelFilter, channelFilter) with
    | Some (k, v) => <[k := v]> acc
    | None => acc
    end.
Proof. reflexivity. Qed.

Lemma keyed_without_heartbeat_entry (acc : gmap string AlertReceiveChannel)
    (item : AlertReceiveChannel) :
  <[arc_id item := omit_heartbeat item]> acc =
    match Some (arc_id item, omit_heartbeat item) with
    | Some (k, v) => <[k := v]> acc
    | None => acc
    end.
Proof. reflexivity. Qed.

Lemma heartbeats_of_entry (acc : gmap string Heartbeat) (alertReceiveChannel : AlertReceiveChannel) :
  match truthy (arc_heartbeat alertReceiveChannel) with
  | Some hb => <[hb_id hb := hb]> acc
  | None => acc
  end =
  match heartbeat_entry alertReceiveChannel with
  | Some (k, v) => <[k := v]> acc
  | None => acc
  end.
Proof. unfold heartbeat_entry. by destruct (truthy _). Qed.

Lemma heartbeat_ids_of_entry (acc : gmap string string) (alertReceiveChannel : AlertReceiveChannel) :
  match truthy (arc_heartbeat alertReceiveChannel) with
  | Some hb => <[arc_id alertReceiveChannel := hb_id hb]> acc
  | None => acc
  end =
  match heartbeat_id_entry alertReceiveChannel with
  | Some (k, v) => <[k := v]> acc
  | None => acc
  end.
Proof. unfold heartbeat_id_entry. by destruct (truthy _). Qed.

(** *** Channel filters keyed by id *)

Lemma keyed_channel_filters_Some (response : list ChannelFilter) k (cf : ChannelFilter) :
  keyed_channel_filters response !! k = Some cf -> cf ∈ response /\ cf_id cf = k.
Proof.
  intros H.
  destruct (reduce_lookup_Some _ (fun x => Some (cf_id x, x))
              keyed_channel_filters_entry response k cf H)
    as (x & Hx & Hex).
  injection Hex as <- <-. done.
Qed.

Lemma keyed_channel_filters_present (response : list ChannelFilter) (cf : ChannelFilter) :
  cf ∈ response ->
  exists cf', keyed_channel_filters response !! cf_id cf = Some cf'
              /\ cf' ∈ response /\ cf_id cf' = cf_id cf.
Proof.
  intros Hin.
  destruct (reduce_lookup_is_Some _ (fun x => Some (cf_id x, x))
              keyed_channel_filters_entry response cf
              (cf_id cf) cf Hin eq_refl) as [cf' Hcf'].
  exists cf'. split; [done |]. by apply keyed_channel_filters_Some.
Qed.

Lemma keyed_channel_filters_unique (response : list ChannelFilter) (cf : ChannelFilter) :
  cf ∈ response ->
  (forall cf', cf' ∈ response -> cf_id cf' = cf_id cf -> cf' = cf) ->
  keyed_channel_filters response !! cf_id cf = Some cf.
Proof.
  intros Hin Huniq.
  destruct (keyed_channel_filters_present response cf Hin) as (cf' & Hl & Hin' & Hid).
  rewrite Hl. f_equal. by apply Huniq.
Qed.

(** ** Fetching channel filters *)

Lemma final_fetchChannelFilters (srv : Server) (s : State)
    (alertReceiveChannelId : string) (isOverwrite : bool)
    (response : list ChannelFilter) :
  respond srv _
    (makeRequest ExpectChannelFilters "/channel_filters/"
       {| method := None;
          params := [("alert_receive_channel", Some alertReceiveChannelId)];
          data := NoData; withCredentials := false |}) = Some response ->
  let r := run srv (fetchChannelFilters alertReceiveChannelId isOverwrite) s in
  outcome r = Resolved tt
  /\ final r =
       set_channelFilterIds
         (<[alertReceiveChannelId := cf_id <$> response]> (channelFilterIds s))
         (set_channelFilters
            (if isOverwrite then keyed_channel_filters response
             else keyed_channel_filters response ∪ channelFilters s) s).
Proof.
  intros Hresp. unfold fetchChannelFilters. cbn in Hresp |- *. rewrite Hresp.
  destruct isOverwrite; cbn; split; reflexivity.
Qed.

Lemma failed_fetchChannelFilters (srv : Server) (s : State)
    (alertReceiveChannelId : string) (isOverwrite : bool) :
  respond srv _
    (makeRequest ExpectChannelFilters "/channel_filters/"
       {| method := None;
          params := [("alert_receive_channel", Some alertReceiveChannelId)];
          data := NoData; withCredentials := false |}) = None ->
  final (run srv (fetchChannelFilters alertReceiveChannelId isOverwrite) s) = s.
Proof.
  intros Hresp. unfold fetchChannelFilters. cbn in Hresp |- *. by rewrite Hresp.
Qed.

(** C7: after [fetchChannelFilters] on a server response, the ordered list
    of the parent holds the ids of the response in the order of the response,
    and every channel filter of the response is in [channelFilters] under its
    id (being itself the entry when no other filter of the response carries
    its id). *)
Theorem fetchChannelFilters_stores_response (srv : Server) (s : State)
    (alertReceiveChannelId : string) (isOverwrite : bool)
    (response : list ChannelFilter) :
  respond srv _
    (makeRequest ExpectChannelFilters "/channel_filters/"
       {| method := None;
          params := [("alert_receive_channel", Some alertReceiveChannelId)];
          data := NoData; withCredentials := false |}) = Some response ->
  let r := run srv (fetchChannelFilters alertReceiveChannelId isOverwrite) s in
  outcome r = Resolved tt
  /\ channelFilterIds (final r) !! alertReceiveChannelId = Some (cf_id <$> response)
  /\ (forall cf, cf ∈ response ->
        exists cf', channelFilters (final r) !! cf_id cf = Some cf'
                    /\ cf' ∈ response /\ cf_id cf' = cf_id cf)
  /\ (forall cf, cf ∈ response ->
        (forall cf', cf' ∈ response -> cf_id cf' = cf_id cf -> cf' = cf) ->
        channelFilters (final r) !! cf_id cf = Some cf).
Proof.
  intros Hresp r.
  destruct (final_fetchChannelFilters srv s alertReceiveChannelId isOverwrite
              response Hresp) as [Hout Hfin].
  fold r in Hout, Hfin. rewrite Hfin. cbn.
  assert (Hkeyed : forall k cf,
             keyed_channel_filters response !! k = Some cf ->
             (if isOverwrite then keyed_channel_filters response
              else keyed_channel_filters response ∪ channelFilters s) !! k = Some cf).
  { intros k cf Hk. destruct isOverwrite; [done |].
    by apply lookup_union_Some_l. }
  split; [done |]. split; [apply lookup_insert_eq |]. split.
  - intros cf Hin.
    destruct (keyed_channel_filters_present response cf Hin) as (cf' & Hl & Hin' & Hid).
    exists cf'. auto.
  - intros cf Hin Huniq. apply Hkeyed.
    by apply keyed_channel_filters_unique.
Qed.

(** ** Repositioning a channel filter *)

(** C2: [moveChannelFilterToPosition] first replaces the local ordered list
    of the parent by [move list oldIndex newIndex], then issues the
    [move_to_position] PUT for the id that was at [oldIndex] with
    [position=newIndex], and then reloads the channel filters of the parent
    in overwrite mode; nothing else happens. *)
Theorem moveChannelFilterToPosition_steps
    (move : list string -> Z -> Z -> list string) (srv : Server) (s : State)
    (alertReceiveChannelId : string) (ids : list string)
    (oldIndex newIndex : Z) (channelFilterId : string) :
  channelFilterIds s !! alertReceiveChannelId = Some ids ->
  jsindex ids oldIndex = Some channelFilterId ->
  respond srv _
    (makeRequest ExpectIgnored
       ("/channel_filters/" +:+ channelFilterId
          +:+ "/move_to_position/?position=" +:+ pretty newIndex)
       (request (Some PUT))) = Some tt ->
  let moved :=
    set_channelFilterIds
      (<[alertReceiveChannelId := move ids oldIndex newIndex]> (channelFilterIds s)) s in
  let reload := run srv (fetchChannelFilters alertReceiveChannelId true) moved in
  let r := run srv (moveChannelFilterToPosition move alertReceiveChannelId
                      oldIndex newIndex) s in
  trace r =
    Mutated s moved
    :: Requested
         (makeRequest ExpectIgnored
            ("/channel_filters/" +:+ channelFilterId
               +:+ "/move_to_position/?position=" +:+ pretty newIndex)
            (request (Some PUT))) (Some tt)
    :: trace reload ++ unhandled (outcome reload)
  /\ final r = final reload
  /\ outcome r = Resolved tt
  /\ requests (trace r) =
       [(PUT, "/channel_filters/" +:+ channelFilterId
                +:+ "/move_to_position/?position=" +:+ pretty newIndex);
        (GET, "/channel_filters/")]
  /\ (forall response,
        respond srv _
          (makeRequest ExpectChannelFilters "/channel_filters/"
             {| method := None;
                params := [("alert_receive_channel", Some alertReceiveChannelId)];
                data := NoData; withCredentials := false |}) = Some response ->
        channelFilters (final r) = keyed_channel_filters response
        /\ channelFilterIds (final r) !! alertReceiveChannelId
           = Some (cf_id <$> response)).
Proof.
  intros Hids Hid Hput moved reload r.
  assert (Hr : r = {| trace :=
                        Mutated s moved
                        :: Requested
                             (makeRequest ExpectIgnored
                                ("/channel_filters/" +:+ channelFilterId
                                   +:+ "/move_to_position/?position=" +:+ pretty newIndex)
                                (request (Some PUT))) (Some tt)
                        :: trace reload ++ unhandled (outcome reload);
                      final := final reload; outcome := Resolved tt |}).
  { subst r. unfold moveChannelFilterToPosition.
    cbn [run]. rewrite Hids, Hid. cbn in Hput |- *. rewrite Hput. cbn.
    fold moved. fold reload. by rewrite app_nil_r. }
  rewrite Hr. cbn [trace final outcome].
  split; [done |]. split; [done |]. split; [done |]. split.
  - subst reload. unfold fetchChannelFilters. cbn.
    case_respond; reflexivity.
  - intros response Hget.
    destruct (final_fetchChannelFilters srv moved alertReceiveChannelId true
                response Hget) as [_ Hfin].
    fold reload in Hfin. rewrite Hfin. cbn.
    split; [done | apply lookup_insert_eq].
Qed.

(** ** When the state changes *)

(** C3, as the code has it: every change of state is made inside a
    transactional boundary, [runInAction] after a response or the action of
    the method itself before its first await.  Every operation other than the
    two that edit the ordered list optimistically changes the state only
    after a response and leaves it unchanged when no request is answered.
    [moveChannelFilterToPosition] first sets [channelFilterIds[parent]] to
    [move list oldIndex newIndex], and [deleteChannelFilter] first sets
    [channelFilterIds[parent]] to the list after [splice(indexOf(id), 1)];
    that edit is made before the request and stays when the request is not
    answered, and from there on they too change the state only after a
    response.  Without the list (or the filter) they read, the two change
    nothing. *)
Theorem state_changes_per_response
    (move : list string -> Z -> Z -> list string) (srv : Server) (s : State)
    (op : Operation) :
  let r := run srv (perform move op) s in
  transactional (trace r) = true
  /\ (optimistic op = false ->
        mutations_follow_response (trace r) = true
        /\ (no_response (trace r) = true -> final r = s))
  /\ (forall alertReceiveChannelId oldIndex newIndex ids,
        op = OpMoveChannelFilterToPosition alertReceiveChannelId oldIndex newIndex ->
        channelFilterIds s !! alertReceiveChannelId = Some ids ->
        let edited :=
          set_channelFilterIds
            (<[alertReceiveChannelId := move ids oldIndex newIndex]>
               (channelFilterIds s)) s in
        exists rest,
          trace r = Mutated s edited :: rest
          /\ mutations_follow_response rest = true
          /\ (no_response rest = true -> final r = edited))
  /\ (forall channelFilterId channelFilter ids,
        op = OpDeleteChannelFilter channelFilterId ->
        channelFilters s !! channelFilterId = Some channelFilter ->
        channelFilterIds s !! cf_alert_receive_channel channelFilter = Some ids ->
        let edited :=
          set_channelFilterIds
            (<[cf_alert_receive_channel channelFilter :=
                 splice_one ids (indexOf ids channelFilterId)]>
               (channelFilterIds s)) s in
        exists rest,
          trace r = Mutated s edited :: rest
          /\ mutations_follow_response rest = true
          /\ (no_response rest = true -> final r = edited))
  /\ (forall alertReceiveChannelId oldIndex newIndex,
        op = OpMoveChannelFilterToPosition alertReceiveChannelId oldIndex newIndex ->
        channelFilterIds s !! alertReceiveChannelId = None ->
        trace r = [] /\ final r = s)
  /\ (forall channelFilterId,
        op = OpDeleteChannelFilter channelFilterId ->
        (channelFilters s !! channelFilterId = None
         \/ exists channelFilter,
              channelFilters s !! channelFilterId = Some channelFilter
              /\ channelFilterIds s !! cf_alert_receive_channel channelFilter = None) ->
        trace r = [] /\ final r = s).
Proof.
  intros r. subst r. split; [| split; [| split; [| split; [| split]]]].
  - destruct op; unfold perform.
    + unfold create. run_cases; reflexivity.
    + unfold update. run_cases; reflexivity.
    + unfold fetchItemById. run_cases; reflexivity.
    + unfold fetchItems. run_cases; reflexivity.
    + unfold fetchPaginatedItems.
      destruct invalidateFn as [[] |], shouldFetchCounters; run_cases; reflexivity.
    + unfold fetchChannelFilters. destruct isOverwrite; run_cases; reflexivity.
    + unfold saveChannelFilter. run_cases; reflexivity.
    + unfold moveChannelFilterToPosition, fetchChannelFilters. run_cases; reflexivity.
    + unfold deleteChannelFilter, fetchChannelFilters. run_cases; reflexivity.
    + unfold fetchAlertReceiveChannelOptions. run_cases; reflexivity.
    + unfold saveAlertReceiveChannel. run_cases; reflexivity.
    + unfold fetchTemplates. run_cases; reflexivity.
    + unfold saveTemplates. run_cases; reflexivity.
    + unfold fetchConnectedContactPoints. run_cases; reflexivity.
    + unfold fetchCounters. run_cases; reflexivity.
    + unfold fetchCountersForIntegration. run_cases; reflexivity.
  - intros Hopt. destruct op; try discriminate Hopt; unfold perform.
    + unfold create. run_cases; repeat split; (reflexivity || discriminate).
    + unfold update. run_cases; repeat split; (reflexivity || discriminate).
    + unfold fetchItemById. run_cases; repeat split; (reflexivity || discriminate).
    + unfold fetchItems. run_cases; repeat split; (reflexivity || discriminate).
    + unfold fetchPaginatedItems.
      destruct invalidateFn as [[] |], shouldFetchCounters;
        run_cases; repeat split; (reflexivity || discriminate).
    + unfold fetchChannelFilters.
      destruct isOverwrite; run_cases; repeat split; (reflexivity || discriminate).
    + unfold saveChannelFilter. run_cases; repeat split; (reflexivity || discriminate).
    + unfold fetchAlertReceiveChannelOptions.
      run_cases; repeat split; (reflexivity || discriminate).
    + unfold saveAlertReceiveChannel.
      run_cases; repeat split; (reflexivity || discriminate).
    + unfold fetchTemplates. run_cases; repeat split; (reflexivity || discriminate).
    + unfold saveTemplates. run_cases; repeat split; (reflexivity || discriminate).
    + unfold fetchConnectedContactPoints.
      run_cases; repeat split; (reflexivity || discriminate).
    + unfold fetchCounters. run_cases; repeat split; (reflexivity || discriminate).
    + unfold fetchCountersForIntegration.
      run_cases; repeat split; (reflexivity || discriminate).
  - intros alertReceiveChannelId oldIndex newIndex ids -> Hids edited. subst edited.
    unfold perform, moveChannelFilterToPosition, fetchChannelFilters. cbn [run].
    rewrite Hids.
    run_cases; eexists; (split; [reflexivity |]); split; (reflexivity || discriminate).
  - intros channelFilterId channelFilter ids -> Hcf Hids edited. subst edited.
    unfold perform, deleteChannelFilter, fetchChannelFilters. cbn [run].
    rewrite Hcf, Hids.
    run_cases; eexists; (split; [reflexivity |]); split; (reflexivity || discriminate).
  - intros alertReceiveChannelId oldIndex newIndex -> Hnone.
    unfold perform, moveChannelFilterToPosition. cbn [run]. by rewrite Hnone.
  - intros channelFilterId -> [Hnone | (channelFilter & Hcf & Hids)];
      unfold perform, deleteChannelFilter; cbn [run].
    + by rewrite Hnone.
    + by rewrite Hcf, Hids.
Qed.

Lemma optimistic_edit_survives_failed_request :
  let r := run server_refusing_writes
             (perform move_by_splice (OpMoveChannelFilterToPosition "A" 0 1)) loaded in
  let r' := run server_refusing_writes
              (perform move_by_splice (OpDeleteChannelFilter "F1")) loaded in
  (no_response (trace r) = true
   /\ channelFilterIds loaded !! "A" = Some ["F1"; "F2"]
   /\ channelFilterIds (final r) !! "A" = Some ["F2"; "F1"]
   /\ final r <> loaded
   /\ mutations_follow_response (trace r) = false)
  /\ (no_response (trace r') = true
      /\ channelFilterIds (final r') !! "A" = Some ["F2"]
      /\ final r' <> loaded
      /\ mutations_follow_response (trace r') = false).
Proof.
  cbv zeta. repeat split; try (vm_compute; reflexivity).
  - intros H. apply (f_equal (fun s => channelFilterIds s !! "A")) in H.
    vm_compute in H. discriminate H.
  - intros H. apply (f_equal (fun s => channelFilterIds s !! "A")) in H.
    vm_compute in H. discriminate H.
Qed.

Lemma state_changes_per_response_witness :
  let r := run server_down (perform move_by_splice (OpFetchItems (QueryString ""))) loaded in
  let r' := run server_refusing_writes
              (perform move_by_splice (OpMoveChannelFilterToPosition "A" 0 1)) loaded in
  let r'' := run server_refusing_writes
               (perform move_by_splice (OpDeleteChannelFilter "F1")) loaded in
  (transactional (trace r) = true
   /\ mutations_follow_response (trace r) = true
   /\ (no_response (trace r) = true -> final r = loaded))
  /\ (transactional (trace r') = true
      /\ exists s1 rest,
           trace r' = Mutated loaded s1 :: rest
           /\ channelFilterIds s1 !! "A" = Some ["F2"; "F1"]
           /\ final r' = s1)
  /\ (transactional (trace r'') = true
      /\ exists s1 rest,
           trace r'' = Mutated loaded s1 :: rest
           /\ channelFilterIds s1 !! "A" = Some ["F2"]
           /\ final r'' = s1).
Proof.
  intros r r' r''.
  destruct (state_changes_per_response move_by_splice server_down loaded
              (OpFetchItems (QueryString ""))) as (Htx & Hplain & _).
  destruct (state_changes_per_response move_by_splice server_refusing_writes loaded
              (OpMoveChannelFilterToPosition "A" 0 1)) as (Htx' & _ & Hmove & _).
  destruct (state_changes_per_response move_by_splice server_refusing_writes loaded
              (OpDeleteChannelFilter "F1")) as (Htx'' & _ & _ & Hdelete & _).
  split; [| split].
  - split; [exact Htx | exact (Hplain eq_refl)].
  - split; [exact Htx' |].
    destruct (Hmove "A" 0 1 ["F1"; "F2"] eq_refl eq_refl) as (rest & Htrace & _ & Hfinal).
    eexists _, rest. split; [exact Htrace |].
    split; [vm_compute; reflexivity |].
    apply Hfinal. replace rest with (tail (trace r')) by (unfold r'; by rewrite Htrace).
    vm_compute. reflexivity.
  - split; [exact Htx'' |].
    destruct (Hdelete "F1" filter_F1 ["F1"; "F2"] eq_refl eq_refl eq_refl)
      as (rest & Htrace & _ & Hfinal).
    eexists _, rest. split; [exact Htrace |].
    split; [vm_compute; reflexivity |].
    apply Hfinal. replace rest with (tail (trace r'')) by (unfold r''; by rewrite Htrace).
    vm_compute. reflexivity.
Defined.

(** ** Which keys a run can drop *)

(** C4, as the code has it: no operation drops a key of [items],
    [channelFilterIds], [alertReceiveChannelToHeartbeat], [actions],
    [templates] or [connectedContactPoints]; keys of [channelFilters] are
    dropped only by a reload in overwrite mode, and keys of [counters] only
    by an operation that refetches the counters. *)
Theorem keys_dropped_only_by_overwrite_or_snapshot
    (move : list string -> Z -> Z -> list string) (srv : Server) (s : State)
    (op : Operation) :
  keeps_keys (reloads_in_overwrite_mode op) (refetches_counters op)
    s (final (run srv (perform move op) s)).
Proof.
  unfold keeps_keys.
  destruct op; unfold perform.
  - unfold create. run_cases; repeat split; try discriminate; set_solver.
  - unfold update. run_cases; repeat split; try discriminate; set_solver.
  - unfold fetchItemById. run_cases; repeat split; try discriminate; set_solver.
  - unfold fetchItems. run_cases; repeat split; try discriminate; set_solver.
  - unfold fetchPaginatedItems.
    destruct invalidateFn as [[] |], shouldFetchCounters;
      run_cases; repeat split; try discriminate; set_solver.
  - unfold fetchChannelFilters.
    destruct isOverwrite; run_cases; repeat split; try discriminate; set_solver.
  - unfold saveChannelFilter. run_cases; repeat split; try discriminate; set_solver.
  - unfold moveChannelFilterToPosition, fetchChannelFilters.
    run_cases; repeat split; try discriminate; set_solver.
  - unfold deleteChannelFilter, fetchChannelFilters.
    run_cases; repeat split; try discriminate; set_solver.
  - unfold fetchAlertReceiveChannelOptions.
    run_cases; repeat split; try discriminate; set_solver.
  - unfold saveAlertReceiveChannel.
    run_cases; repeat split; try discriminate; set_solver.
  - unfold fetchTemplates. run_cases; repeat split; try discriminate; set_solver.
  - unfold saveTemplates. run_cases; repeat split; try discriminate; set_solver.
  - unfold fetchConnectedContactPoints.
    run_cases; repeat split; try discriminate; set_solver.
  - unfold fetchCounters. run_cases; repeat split; try discriminate; set_solver.
  - unfold fetchCountersForIntegration.
    run_cases; repeat split; try discriminate; set_solver.
Qed.

Lemma keys_dropped_only_by_overwrite_or_snapshot_witness :
  keeps_keys false false loaded
    (final (run server_up
              (perform move_by_splice
                 (OpSaveChannelFilter "F1"
                    {| cfp_filtering_term := Some "severity=critical";
                       cfp_is_default := None |})) loaded)).
Proof.
  apply (keys_dropped_only_by_overwrite_or_snapshot move_by_splice server_up loaded
           (OpSaveChannelFilter "F1"
              {| cfp_filtering_term := Some "severity=critical";
                 cfp_is_default := None |})).
Defined.

Lemma move_drops_channel_filters_of_other_integrations :
  let s' := final (run server_up
                     (perform move_by_splice (OpMoveChannelFilterToPosition "A" 0 1))
                     loaded) in
  channelFilters loaded !! "G1" = Some filter_G1
  /\ channelFilters s' !! "G1" = None
  /\ ~ keeps_keys false false loaded s'.
Proof.
  cbv zeta. split; [vm_compute; reflexivity |]. split; [vm_compute; reflexivity |].
  intros (_ & _ & _ & _ & _ & _ & Hcf & _). specialize (Hcf eq_refl).
  assert (Hin : "G1" ∈ dom (channelFilters loaded)).
  { apply elem_of_dom. exists filter_G1. vm_compute. reflexivity. }
  apply Hcf, elem_of_dom in Hin. destruct Hin as [x Hx].
  vm_compute in Hx. discriminate Hx.
Qed.

(** ** Creating an integration *)

(** C5, as the code has it: [create] leaves the observable state of the
    store as it was; when the POST and the reload of the organization both
    succeed it resolves to the created channel, which it does not write to
    [items]. *)
Theorem create_returns_without_storing (srv : Server) (s : State)
    (data : AlertReceiveChannel) (skipErrorHandling : option bool) :
  let r := run srv (create data skipErrorHandling) s in
  final r = s
  /\ (forall ev, ev ∈ trace r -> is_mutation ev = false)
  /\ (forall result,
        respond srv _ (onCallApi_POST_alert_receive_channels skipErrorHandling data)
          = Some result ->
        external srv "organizationStore.loadCurrentOrganization" = true ->
        outcome r = Resolved result
        /\ trace r =
             [Requested (onCallApi_POST_alert_receive_channels skipErrorHandling data)
                        (Some result);
              ExternalCall "organizationStore.loadCurrentOrganization" true]
        /\ items (final r) = items s).
Proof.
  intros r. subst r. unfold create. split; [| split].
  - run_cases; reflexivity.
  - intros ev. run_cases; intros Hev;
      repeat (apply elem_of_cons in Hev as [-> | Hev]; [reflexivity |]);
      by apply elem_of_nil in Hev.
  - intros result Hpost Hext. cbn. rewrite Hpost. cbn. rewrite Hext. by cbn.
Qed.

Lemma create_returns_without_storing_witness :
  let r := run server_up (create channel_B None) initial in
  final r = initial
  /\ outcome r = Resolved channel_A
  /\ items (final r) = items initial.
Proof.
  destruct (create_returns_without_storing server_up initial channel_B None)
    as (Hfin & _ & Hok).
  destruct (Hok channel_A eq_refl eq_refl) as (Hout & _ & Hitems).
  split; [exact Hfin |]. split; [exact Hout | exact Hitems].
Defined.

Lemma create_does_not_store_the_channel :
  let r := run server_up (create channel_B None) initial in
  outcome r = Resolved channel_A
  /\ items (final r) !! arc_id channel_A = None.
Proof. cbv zeta. split; vm_compute; reflexivity. Qed.

(** ** Request paths of the channel filter methods *)

Lemma append_assoc (a b c : string) : (a +:+ b) +:+ c = a +:+ b +:+ c.
Proof.
  induction a as [| ch a IH]; [reflexivity |].
  change (String ch ((a +:+ b) +:+ c) = String ch (a +:+ b +:+ c)).
  by rewrite IH.
Qed.

(** C6, as the code has it: [saveChannelFilter] issues one request, a PUT to
    exactly [/channel_filters/{id}/]; [moveChannelFilterToPosition] issues
    its PUT to the action path below it,
    [/channel_filters/{id}/move_to_position/?position={newIndex}], for the id
    at [oldIndex]. *)
Theorem channel_filter_request_paths
    (move : list string -> Z -> Z -> list string) (srv : Server) (s : State) :
  (forall channelFilterId data,
     requests (trace (run srv (saveChannelFilter channelFilterId data) s))
       = [(PUT, channel_filter_path channelFilterId)])
  /\ (forall alertReceiveChannelId ids oldIndex newIndex channelFilterId,
        channelFilterIds s !! alertReceiveChannelId = Some ids ->
        jsindex ids oldIndex = Some channelFilterId ->
        exists rest,
          requests (trace (run srv (moveChannelFilterToPosition move
                                      alertReceiveChannelId oldIndex newIndex) s))
            = (PUT, channel_filter_path channelFilterId
                      +:+ "move_to_position/?position=" +:+ pretty newIndex)
              :: rest).
Proof.
  split.
  - intros channelFilterId data. unfold saveChannelFilter, channel_filter_path.
    run_cases; reflexivity.
  - intros alertReceiveChannelId ids oldIndex newIndex channelFilterId Hids Hid.
    unfold moveChannelFilterToPosition, channel_filter_path.
    cbn [run]. rewrite Hids, Hid.
    rewrite !append_assoc.
    change ("/" +:+ "move_to_position/?position=" +:+ pretty newIndex)
      with ("/move_to_position/?position=" +:+ pretty newIndex).
    cbn [mbind Prog_bind bind assign await run after trace requests interpolate].
    case_respond; cbn; eexists; reflexivity.
Qed.

Lemma channel_filter_request_paths_witness :
  requests (trace (run server_up
                     (saveChannelFilter "F1"
                        {| cfp_filtering_term := None; cfp_is_default := Some true |})
                     loaded))
    = [(PUT, "/channel_filters/F1/")]
  /\ exists rest,
       requests (trace (run server_up
                          (moveChannelFilterToPosition move_by_splice "A" 0 1) loaded))
         = (PUT, "/channel_filters/F1/move_to_position/?position=1") :: rest.
Proof.
  destruct (channel_filter_request_paths move_by_splice server_up loaded)
    as [Hsave Hmove].
  split.
  - apply (Hsave "F1").
  - apply (Hmove "A" ["F1"; "F2"] 0 1 "F1"); reflexivity.
Defined.

Lemma move_and_delete_paths_are_not_the_resource_path :
  requests (trace (run server_up
                     (moveChannelFilterToPosition move_by_splice "A" 0 1) loaded))
    = [(PUT, "/channel_filters/F1/move_to_position/?position=1");
       (GET, "/channel_filters/")]
  /\ "/channel_filters/F1/move_to_position/?position=1" <> channel_filter_path "F1"
  /\ requests (trace (run server_up (deleteChannelFilter "F1") loaded))
     = [(DELETE, "/channel_filters/F1"); (GET, "/channel_filters/")]
  /\ "/channel_filters/F1" <> channel_filter_path "F1".
Proof.
  split; [vm_compute; reflexivity |]. split; [vm_compute; discriminate |].
  split; [vm_compute; reflexivity |]. vm_compute; discriminate.
Qed.

(** ** Heartbeats of fetched integrations *)

Lemma keyed_without_heartbeat_Some (results : list AlertReceiveChannel) k
    (e : AlertReceiveChannel) :
  keyed_without_heartbeat results !! k = Some e ->
  exists item, item ∈ results /\ arc_id item = k /\ e = omit_heartbeat item.
Proof.
  intros H.
  destruct (reduce_lookup_Some _ (fun x => Some (arc_id x, omit_heartbeat x))
              keyed_without_heartbeat_entry results k e H) as (x & Hx & Hex).
  injection Hex as <- <-. by exists x.
Qed.

Lemma keyed_without_heartbeat_present (results : list AlertReceiveChannel)
    (item : AlertReceiveChannel) :
  item ∈ results ->
  exists e, keyed_without_heartbeat results !! arc_id item = Some e
            /\ arc_heartbeat e = Missing.
Proof.
  intros Hin.
  destruct (reduce_lookup_is_Some _ (fun x => Some (arc_id x, omit_heartbeat x))
              keyed_without_heartbeat_entry results item
              (arc_id item) (omit_heartbeat item) Hin eq_refl) as [e He].
  exists e. split; [done |].
  destruct (keyed_without_heartbeat_Some results _ e He) as (x & _ & _ & ->).
  reflexivity.
Qed.

Lemma heartbeats_of_present (results : list AlertReceiveChannel)
    (item : AlertReceiveChannel) (hb : Heartbeat) :
  item ∈ results -> arc_heartbeat item = Val hb ->
  is_Some (heartbeats_of results !! hb_id hb)
  /\ is_Some (heartbeat_ids_of results !! arc_id item).
Proof.
  intros Hin Hhb. split.
  - apply (reduce_lookup_is_Some _ heartbeat_entry heartbeats_of_entry
             results item (hb_id hb) hb Hin).
    unfold heartbeat_entry. by rewrite Hhb.
  - apply (reduce_lookup_is_Some _ heartbeat_id_entry heartbeat_ids_of_entry
             results item (arc_id item) (hb_id hb) Hin).
    unfold heartbeat_id_entry. by rewrite Hhb.
Qed.

Lemma union_is_Some {V} (m1 m2 : gmap string V) k :
  is_Some (m1 !! k) -> is_Some ((m1 ∪ m2) !! k).
Proof. intros [v Hv]. exists v. by apply lookup_union_Some_l. Qed.

Lemma stored_without_heartbeat_intro (results : list AlertReceiveChannel) (s s' : State) :
  items s' = keyed_without_heartbeat results ∪ items s ->
  heartbeatStore_items s' = heartbeats_of results ∪ heartbeatStore_items s ->
  alertReceiveChannelToHeartbeat s'
    = heartbeat_ids_of results ∪ alertReceiveChannelToHeartbeat s ->
  stored_without_heartbeat results s s'.
Proof.
  intros Hitems Hhb Hids. unfold stored_without_heartbeat.
  split; [done |]. split; [| split].
  - intros k e Hk.
    destruct (keyed_without_heartbeat_Some results k e Hk) as (item & Hin & Hid & ->).
    split; [reflexivity |]. by exists item.
  - intros item Hin.
    destruct (keyed_without_heartbeat_present results item Hin) as (e & He & Hmiss).
    exists e. split; [| done]. rewrite Hitems. by apply lookup_union_Some_l.
  - intros item hb Hin Hval.
    destruct (heartbeats_of_present results item hb Hin Hval) as [H1 H2].
    rewrite Hhb, Hids. split; by apply union_is_Some.
Qed.

(** C10: the list fetches write every item into [items] without its
    [heartbeat] member and record the heartbeats in the heartbeat store and in
    [alertReceiveChannelToHeartbeat]; [fetchItemById] writes the item under
    the requested id with a [heartbeat] member that is the heartbeat of the
    response, or [null]. *)
Theorem heartbeat_stripped_by_lists_kept_by_fetchItemById (srv : Server) (s : State) :
  (forall query page,
     respond srv _
       (onCallApi_GET_alert_receive_channels
          match query with
          | QueryString search => SearchParams search
          | QueryObject q => RawParams q
          end) = Some page ->
     stored_without_heartbeat (page_results page) s
       (final (run srv (fetchItems query) s)))
  /\ (forall filters page shouldFetchCounters invalidateFn pg,
        respond srv _ (onCallApi_GET_alert_receive_channels (PagedQuery filters page))
          = Some pg ->
        default false invalidateFn = false ->
        stored_without_heartbeat (page_results pg) s
          (final (run srv (fetchPaginatedItems filters page shouldFetchCounters
                             invalidateFn) s)))
  /\ (forall id skipErrorHandling response,
        respond srv _ (onCallApi_GET_alert_receive_channels_id (Some skipErrorHandling) id)
          = Some response ->
        let s' := final (run srv (fetchItemById id skipErrorHandling) s) in
        exists e,
          items s' !! id = Some e
          /\ e = with_heartbeat (arc_heartbeat e) response
          /\ arc_heartbeat e <> Missing
          /\ (forall hb, arc_heartbeat response = Val hb ->
                arc_heartbeat e = Val hb
                /\ heartbeatStore_items s' !! hb_id hb = Some hb
                /\ alertReceiveChannelToHeartbeat s' !! arc_id response
                   = Some (hb_id hb))
          /\ (truthy (arc_heartbeat response) = None -> arc_heartbeat e = Null)).
Proof.
  split; [| split].
  - intros query page Hpage. apply stored_without_heartbeat_intro.
    + unfold fetchItems. cbn in Hpage |- *. rewrite Hpage. run_cases; reflexivity.
    + unfold fetchItems. cbn in Hpage |- *. rewrite Hpage. run_cases; reflexivity.
    + unfold fetchItems. cbn in Hpage |- *. rewrite Hpage. run_cases; reflexivity.
  - intros filters page shouldFetchCounters invalidateFn pg Hpg Hinv.
    apply stored_without_heartbeat_intro;
      unfold fetchPaginatedItems; cbn in Hpg |- *; rewrite Hpg, Hinv;
      destruct shouldFetchCounters; run_cases; reflexivity.
  - intros id skipErrorHandling response Hresp s'. subst s'.
    unfold fetchItemById. cbn in Hresp |- *. rewrite Hresp. cbn.
    eexists. split; [apply lookup_insert_eq |]. cbn.
    split; [reflexivity |]. split; [by destruct (arc_heartbeat response) |]. split.
    + intros hb Hhb. rewrite Hhb. cbn.
      split; [reflexivity |].
      split; (apply lookup_union_Some_l; apply lookup_insert_eq).
    + intros Hnone. by destruct (arc_heartbeat response).
Qed.

(** ** The theorems at concrete inputs *)

Lemma moveChannelFilterToPosition_steps_witness :
  let r := run server_up (moveChannelFilterToPosition move_by_splice "A" 0 1) loaded in
  requests (trace r)
    = [(PUT, "/channel_filters/F1/move_to_position/?position=1");
       (GET, "/channel_filters/")]
  /\ outcome r = Resolved tt
  /\ channelFilters (final r) = keyed_channel_filters [filter_F2; filter_F1]
  /\ channelFilterIds (final r) !! "A" = Some ["F2"; "F1"].
Proof.
  destruct (moveChannelFilterToPosition_steps move_by_splice server_up loaded
              "A" ["F1"; "F2"] 0 1 "F1" eq_refl eq_refl eq_refl)
    as (_ & _ & Hout & Hreq & Hreload).
  destruct (Hreload [filter_F2; filter_F1] eq_refl) as [Hcf Hids].
  split; [exact Hreq |]. split; [exact Hout |]. split; [exact Hcf | exact Hids].
Defined.

Lemma fetchChannelFilters_stores_response_witness :
  let r := run server_up (fetchChannelFilters "A" false) loaded in
  channelFilterIds (final r) !! "A" = Some ["F2"; "F1"]
  /\ channelFilters (final r) !! "F1" = Some filter_F1.
Proof.
  destruct (fetchChannelFilters_stores_response server_up loaded "A" false
              [filter_F2; filter_F1] eq_refl) as (_ & Hids & _ & Huniq).
  split; [exact Hids |].
  apply (Huniq filter_F1).
  - apply list_elem_of_further, list_elem_of_here.
  - intros cf' Hin Hid.
    apply elem_of_cons in Hin as [-> | Hin]; [discriminate Hid |].
    apply elem_of_cons in Hin as [-> | Hin]; [reflexivity |].
    by apply elem_of_nil in Hin.
Defined.

Lemma heartbeat_stripped_by_lists_kept_by_fetchItemById_witness :
  stored_without_heartbeat [channel_A; channel_B] initial
    (final (run server_up (fetchItems (QueryString "")) initial))
  /\ stored_without_heartbeat [channel_A; channel_B] initial
       (final (run server_up (fetchPaginatedItems [] 1 false None) initial))
  /\ exists e,
       items (final (run server_up (fetchItemById "A" false) initial)) !! "A" = Some e
       /\ arc_heartbeat e = Val heartbeat_H1.
Proof.
  destruct (heartbeat_stripped_by_lists_kept_by_fetchItemById server_up initial)
    as (Hlist & Hpaged & Hbyid).
  split; [| split].
  - apply (Hlist (QueryString "")
             {| page_count := Some 2; page_results := [channel_A; channel_B];
                page_page_size := Some 25 |} eq_refl).
  - apply (Hpaged [] 1 false None
             {| page_count := Some 2; page_results := [channel_A; channel_B];
                page_page_size := Some 25 |} eq_refl eq_refl).
  - destruct (Hbyid "A" false channel_A eq_refl) as (e & He & _ & _ & Hval & _).
    exists e. split; [exact He |]. apply (Hval heartbeat_H1 eq_refl).
Defined.

(** ** Further examples *)

(** The list fetch strips the heartbeat that the fetch by id keeps. *)
Example fetchItems_then_fetchItemById :
  let listed := final (run server_up (fetchItems (QueryString "")) initial) in
  let one := final (run server_up (fetchItemById "A" false) initial) in
  arc_heartbeat <$> (items listed !! "A") = Some Missing
  /\ heartbeatStore_items listed !! "H1" = Some heartbeat_H1
  /\ alertReceiveChannelToHeartbeat listed !! "A" = Some "H1"
  /\ arc_heartbeat <$> (items one !! "A") = Some (Val heartbeat_H1).
Proof. cbv zeta. repeat split; vm_compute; reflexivity. Qed.

(** With the splice model of [move], the id that was at [oldIndex] is at
    [newIndex] in the local list while the request is under way. *)
Example move_by_splice_places_the_id :
  move_by_splice ["F1"; "F2"; "F3"; "F4"] 0 2 = ["F2"; "F3"; "F1"; "F4"]
  /\ move_by_splice ["F1"; "F2"; "F3"; "F4"] 3 1 = ["F1"; "F4"; "F2"; "F3"]
  /\ channelFilterIds
       (final (run server_refusing_writes
                 (moveChannelFilterToPosition move_by_splice "A" 0 1) loaded)) !! "A"
     = Some ["F2"; "F1"].
Proof. repeat split; vm_compute; reflexivity. Qed.

(** A response that repeats an id leaves the later filter under that id. *)
Example fetchChannelFilters_repeated_id :
  let renamed :=
    {| cf_id := "F1"; cf_alert_receive_channel := "A";
       cf_filtering_term := "team=infra"; cf_is_default := false |} in
  keyed_channel_filters [filter_F1; renamed] !! "F1" = Some renamed.
Proof. vm_compute. reflexivity. Qed.

(** [refetches_counters]: the snapshot of the counters replaces the old
    one. *)
Example fetchCounters_replaces_snapshot :
  let s := set_counters
             {[ "A" := {| alerts_count := Some 3; alert_groups_count := Some 1 |} ]}
             initial in
  counters (final (run server_up fetchCounters s)) !! "A" = None.
Proof. vm_compute. reflexivity. Qed.

(** ** The splice model of [move] *)

Lemma jsindex_Some {A} (arr : list A) (i : Z) (x : A) :
  jsindex arr i = Some x -> 0 <= i < Z.of_nat (length arr).
Proof.
  unfold jsindex. destruct (Z.leb_spec 0 i) as [Hle | Hlt]; [| discriminate].
  intros Hx. apply lookup_lt_Some in Hx. lia.
Qed.

Lemma length_splice_one {A} (arr : list A) (i : Z) :
  0 <= i < Z.of_nat (length arr) ->
  length (splice_one arr i) = (length arr - 1)%nat.
Proof.
  intros Hi. unfold splice_one, splice_start.
  destruct (Z.ltb_spec i 0) as [Hneg | _]; [lia |].
  rewrite Z.min_l by lia.
  rewrite length_app, length_take, length_drop. lia.
Qed.

(** For indices inside the list, the id that was at [oldIndex] is at
    [newIndex] afterwards, and the list keeps its length. *)
Lemma move_by_splice_lands (arr : list string) (oldIndex newIndex : Z) (x : string) :
  jsindex arr oldIndex = Some x ->
  0 <= newIndex < Z.of_nat (length arr) ->
  jsindex (move_by_splice arr oldIndex newIndex) newIndex = Some x
  /\ length (move_by_splice arr oldIndex newIndex) = length arr.
Proof.
  intros Hold Hnew. pose proof (jsindex_Some arr oldIndex x Hold) as Hrange.
  unfold move_by_splice. rewrite Hold.
  pose proof (length_splice_one arr oldIndex Hrange) as Hlen.
  set (rest := splice_one arr oldIndex) in *.
  assert (Hat : splice_start (Z.of_nat (length rest)) newIndex = newIndex).
  { unfold splice_start. destruct (Z.ltb_spec newIndex 0); lia. }
  rewrite Hat. split.
  - unfold jsindex. destruct (Z.leb_spec 0 newIndex); [| lia].
    rewrite lookup_app_r by (rewrite length_take; lia).
    rewrite length_take.
    replace (Z.to_nat newIndex - Z.to_nat newIndex `min` length rest)%nat
      with 0%nat by lia.
    reflexivity.
  - rewrite length_app, length_take. cbn [length]. rewrite length_drop. lia.
Qed.

(** [deleteChannelFilter] of a filter whose id is not in the list of its
    parent: [indexOf] is [-1] and [splice(-1, 1)] takes the last id out. *)
Example deleteChannelFilter_of_unlisted_id :
  let s := set_channelFilterIds {[ "A" := ["F2"]; "B" := ["G1"] ]} loaded in
  channelFilterIds
    (final (run server_refusing_writes (deleteChannelFilter "F1") s)) !! "A"
  = Some [].
Proof. vm_compute. reflexivity. Qed.

(** An invalidated paginated fetch returns [undefined] after its request
    and writes nothing. *)
Example fetchPaginatedItems_invalidated :
  let r := run server_up (fetchPaginatedItems [] 1 true (Some true)) initial in
  requests (trace r) = [(GET, "/alert_receive_channels/")]
  /\ outcome r = Resolved None
  /\ items (final r) = ∅
  /\ forallb (fun ev => negb (is_mutation ev)) (trace r) = true.
Proof. repeat split; vm_compute; reflexivity. Qed.

(** * Further properties of the store *)

Local Open Scope list_scope.

(** ** [indexOf] and [splice] *)

Lemma indexOf_from_unlisted (arr : list string) (x : string) (i : Z) :
  x ∉ arr -> indexOf_from arr x i = -1.
Proof.
  revert i. induction arr as [| y arr IH]; intros i Hx; [reflexivity |].
  cbn [indexOf_from]. apply not_elem_of_cons in Hx as [Hne Hx].
  destruct (decide (y = x)) as [-> | _]; [done | by apply IH].
Qed.

Lemma indexOf_from_first (l1 l2 : list string) (x : string) (i : Z) :
  x ∉ l1 -> indexOf_from (l1 ++ x :: l2) x i = i + Z.of_nat (length l1).
Proof.
  revert i. induction l1 as [| y l1 IH]; intros i Hx; cbn [app indexOf_from length].
  - destruct (decide (x = x)); [lia | done].
  - apply not_elem_of_cons in Hx as [Hne Hx].
    destruct (decide (y = x)) as [-> | _]; [done |].
    rewrite IH by done. lia.
Qed.

Lemma splice_one_at {A} (l1 l2 : list A) (x : A) :
  splice_one (l1 ++ x :: l2) (Z.of_nat (length l1)) = l1 ++ l2.
Proof.
  unfold splice_one, splice_start. rewrite length_app. cbn [length].
  destruct (Z.ltb_spec (Z.of_nat (length l1)) 0) as [Hneg | _]; [lia |].
  rewrite Z.min_l by lia. rewrite Nat2Z.id.
  rewrite take_app_length.
  replace (S (length l1)) with (length (l1 ++ [x])) by (rewrite length_app; cbn; lia).
  replace (l1 ++ x :: l2) with ((l1 ++ [x]) ++ l2) by (by rewrite <- app_assoc).
  by rewrite drop_app_length.
Qed.

Lemma splice_one_from_end {A} (arr : list A) :
  splice_one arr (-1) = take (length arr - 1) arr.
Proof.
  unfold splice_one, splice_start. cbn [Z.ltb Z.compare].
  destruct arr as [| a arr]; [reflexivity |].
  replace (Z.to_nat (Z.max (Z.of_nat (length (a :: arr)) + -1) 0))
    with (length (a :: arr) - 1)%nat by (cbn [length]; lia).
  replace (S (length (a :: arr) - 1)) with (length (a :: arr)) by (cbn [length]; lia).
  by rewrite drop_all, app_nil_r.
Qed.

(** ** Deleting a channel filter *)

(** X1: [deleteChannelFilter] of an id that is not in [channelFilters], or
    whose parent has no ordered list, rejects with a TypeError before any
    request is made and leaves the state as it was. *)
Theorem deleteChannelFilter_unknown_rejects (srv : Server) (s : State)
    (channelFilterId : string) :
  (channelFilters s !! channelFilterId = None
   \/ exists channelFilter,
        channelFilters s !! channelFilterId = Some channelFilter
        /\ channelFilterIds s !! cf_alert_receive_channel channelFilter = None) ->
  run srv (deleteChannelFilter channelFilterId) s
    = {| trace := []; final := s; outcome := Rejected "TypeError" |}.
Proof.
  intros [Hnone | (channelFilter & Hcf & Hids)]; unfold deleteChannelFilter; cbn [run].
  - by rewrite Hnone.
  - by rewrite Hcf, Hids.
Qed.

Lemma deleteChannelFilter_unknown_rejects_witness :
  run server_up (deleteChannelFilter "F9") loaded
    = {| trace := []; final := loaded; outcome := Rejected "TypeError" |}.
Proof.
  apply (deleteChannelFilter_unknown_rejects server_up loaded "F9").
  left. reflexivity.
Defined.

(** X2: when the filter is known, its parent has a list, and the DELETE and
    the reload are answered, [deleteChannelFilter] issues exactly the DELETE
    for [/channel_filters/{id}] and the list GET, resolves, and leaves
    [channelFilters] equal to the filters of the reload and the list of the
    parent equal to their ids; an id the server no longer returns is gone
    from [channelFilters]. *)
Theorem deleteChannelFilter_reloads (srv : Server) (s : State)
    (channelFilterId : string) (channelFilter : ChannelFilter) (ids : list string)
    (response : list ChannelFilter) :
  channelFilters s !! channelFilterId = Some channelFilter ->
  channelFilterIds s !! cf_alert_receive_channel channelFilter = Some ids ->
  respond srv _
    (makeRequest ExpectIgnored ("/channel_filters/" +:+ channelFilterId)
       (request (Some DELETE))) = Some tt ->
  respond srv _
    (makeRequest ExpectChannelFilters "/channel_filters/"
       {| method := None;
          params := [("alert_receive_channel",
                      Some (cf_alert_receive_channel channelFilter))];
          data := NoData; withCredentials := false |}) = Some response ->
  let r := run srv (deleteChannelFilter channelFilterId) s in
  outcome r = Resolved tt
  /\ requests (trace r)
     = [(DELETE, "/channel_filters/" +:+ channelFilterId); (GET, "/channel_filters/")]
  /\ channelFilters (final r) = keyed_channel_filters response
  /\ channelFilterIds (final r) !! cf_alert_receive_channel channelFilter
     = Some (cf_id <$> response)
  /\ (channelFilterId ∉ cf_id <$> response ->
      channelFilters (final r) !! channelFilterId = None).
Proof.
  intros Hcf Hids Hdel Hget r. subst r.
  unfold deleteChannelFilter, fetchChannelFilters. cbn [run].
  rewrite Hcf, Hids. cbn in Hdel, Hget |- *. rewrite Hdel. cbn. rewrite Hget. cbn.
  split; [done |]. split; [done |]. split; [done |].
  split; [apply lookup_insert_eq |].
  intros Hnot. destruct (keyed_channel_filters response !! channelFilterId) as [cf |] eqn:Hk;
    [| done].
  apply keyed_channel_filters_Some in Hk as [Hin <-].
  exfalso. apply Hnot. apply list_elem_of_fmap. by exists cf.
Qed.

Lemma deleteChannelFilter_reloads_witness :
  let r := run (server_routes [filter_F2]) (deleteChannelFilter "F1") loaded in
  outcome r = Resolved tt
  /\ requests (trace r) = [(DELETE, "/channel_filters/F1"); (GET, "/channel_filters/")]
  /\ channelFilterIds (final r) !! "A" = Some ["F2"]
  /\ channelFilters (final r) !! "F1" = None.
Proof.
  destruct (deleteChannelFilter_reloads (server_routes [filter_F2]) loaded "F1"
              filter_F1 ["F1"; "F2"] [filter_F2] eq_refl eq_refl eq_refl eq_refl)
    as (Hout & Hreq & _ & Hids & Hgone).
  split; [exact Hout |]. split; [exact Hreq |]. split; [exact Hids |].
  apply Hgone. intros Hin. apply elem_of_cons in Hin as [Hin | Hin];
    [discriminate Hin | by apply elem_of_nil in Hin].
Defined.

(** X3: the local edit of [deleteChannelFilter] takes the first occurrence
    of the id out of the ordered list of its parent and keeps the other ids
    in their order; it is made before the DELETE request and whatever the
    server answers. *)
Theorem deleteChannelFilter_removes_first_occurrence (srv : Server) (s : State)
    (channelFilterId : string) (channelFilter : ChannelFilter)
    (before after : list string) :
  channelFilters s !! channelFilterId = Some channelFilter ->
  channelFilterIds s !! cf_alert_receive_channel channelFilter
    = Some (before ++ channelFilterId :: after) ->
  channelFilterId ∉ before ->
  exists rest,
    trace (run srv (deleteChannelFilter channelFilterId) s)
    = Mutated s
        (set_channelFilterIds
           (<[cf_alert_receive_channel channelFilter := before ++ after]>
              (channelFilterIds s)) s)
      :: Requested
           (makeRequest ExpectIgnored ("/channel_filters/" +:+ channelFilterId)
              (request (Some DELETE)))
           (respond srv _
              (makeRequest ExpectIgnored ("/channel_filters/" +:+ channelFilterId)
                 (request (Some DELETE))))
      :: rest.
Proof.
  intros Hcf Hids Hfirst. unfold deleteChannelFilter. cbn [run].
  rewrite Hcf, Hids. unfold indexOf.
  rewrite indexOf_from_first by done. rewrite Z.add_0_l, splice_one_at.
  cbn. case_respond; eexists; reflexivity.
Qed.

Lemma deleteChannelFilter_removes_first_occurrence_witness :
  exists rest,
    trace (run server_refusing_writes (deleteChannelFilter "F2") loaded)
    = Mutated loaded (set_channelFilterIds (<["A" := ["F1"]]> (channelFilterIds loaded)) loaded)
      :: Requested
           (makeRequest ExpectIgnored "/channel_filters/F2" (request (Some DELETE))) None
      :: rest.
Proof.
  apply (deleteChannelFilter_removes_first_occurrence server_refusing_writes loaded
           "F2" filter_F2 ["F1"] [] eq_refl eq_refl).
  intros Hin. apply elem_of_cons in Hin as [Hin | Hin];
    [discriminate Hin | by apply elem_of_nil in Hin].
Defined.

(** X4: when the id is not in the ordered list of its parent, [indexOf]
    answers [-1] and [splice(-1, 1)] takes the last id of the list out:
    [deleteChannelFilter] then drops the last route of the parent from the
    local list. *)
Theorem deleteChannelFilter_unlisted_drops_last (srv : Server) (s : State)
    (channelFilterId : string) (channelFilter : ChannelFilter) (ids : list string) :
  channelFilters s !! channelFilterId = Some channelFilter ->
  channelFilterIds s !! cf_alert_receive_channel channelFilter = Some ids ->
  channelFilterId ∉ ids ->
  exists rest,
    trace (run srv (deleteChannelFilter channelFilterId) s)
    = Mutated s
        (set_channelFilterIds
           (<[cf_alert_receive_channel channelFilter := take (length ids - 1) ids]>
              (channelFilterIds s)) s)
      :: rest.
Proof.
  intros Hcf Hids Hnot. unfold deleteChannelFilter. cbn [run].
  rewrite Hcf, Hids. unfold indexOf.
  rewrite indexOf_from_unlisted by done. rewrite splice_one_from_end.
  cbn. case_respond; eexists; reflexivity.
Qed.

Lemma deleteChannelFilter_unlisted_drops_last_witness :
  exists rest s1,
    trace (run server_up (deleteChannelFilter "F1")
             (set_channelFilterIds {[ "A" := ["F2"] ]} loaded))
    = Mutated (set_channelFilterIds {[ "A" := ["F2"] ]} loaded) s1 :: rest
    /\ channelFilterIds s1 !! "A" = Some [].
Proof.
  destruct (deleteChannelFilter_unlisted_drops_last server_up
              (set_channelFilterIds {[ "A" := ["F2"] ]} loaded)
              "F1" filter_F1 ["F2"]) as [rest Hrest].
  - vm_compute. reflexivity.
  - vm_compute. reflexivity.
  - intros Hin. apply elem_of_cons in Hin as [Hin | Hin];
      [discriminate Hin | by apply elem_of_nil in Hin].
  - eexists _, _. split; [exact Hrest | vm_compute; reflexivity].
Defined.

(** ** Repositioning: edge cases *)

Lemma jsindex_None {A} (arr : list A) (i : Z) :
  i < 0 \/ Z.of_nat (length arr) <= i -> jsindex arr i = None.
Proof.
  intros Hi. unfold jsindex. destruct (Z.leb_spec 0 i) as [Hle | Hlt]; [| done].
  apply lookup_ge_None. lia.
Qed.

(** X5: [moveChannelFilterToPosition] for a parent without an ordered list
    rejects with a TypeError before any request and leaves the state as it
    was. *)
Theorem moveChannelFilterToPosition_unknown_parent_rejects
    (move : list string -> Z -> Z -> list string) (srv : Server) (s : State)
    (alertReceiveChannelId : string) (oldIndex newIndex : Z) :
  channelFilterIds s !! alertReceiveChannelId = None ->
  run srv (moveChannelFilterToPosition move alertReceiveChannelId oldIndex newIndex) s
    = {| trace := []; final := s; outcome := Rejected "TypeError" |}.
Proof.
  intros Hnone. unfold moveChannelFilterToPosition. cbn [run]. by rewrite Hnone.
Qed.

Lemma moveChannelFilterToPosition_unknown_parent_rejects_witness :
  run server_up (moveChannelFilterToPosition move_by_splice "Z" 0 1) loaded
    = {| trace := []; final := loaded; outcome := Rejected "TypeError" |}.
Proof.
  apply (moveChannelFilterToPosition_unknown_parent_rejects move_by_splice server_up
           loaded "Z" 0 1).
  reflexivity.
Defined.

(** X6: with [oldIndex] outside the list, the id read is [undefined] and the
    PUT goes to [/channel_filters/undefined/move_to_position/?position=...]:
    the index is not checked against the list. *)
Theorem moveChannelFilterToPosition_out_of_range
    (move : list string -> Z -> Z -> list string) (srv : Server) (s : State)
    (alertReceiveChannelId : string) (ids : list string) (oldIndex newIndex : Z) :
  channelFilterIds s !! alertReceiveChannelId = Some ids ->
  oldIndex < 0 \/ Z.of_nat (length ids) <= oldIndex ->
  exists rest,
    requests (trace (run srv (moveChannelFilterToPosition move alertReceiveChannelId
                                oldIndex newIndex) s))
    = (PUT, "/channel_filters/undefined/move_to_position/?position=" +:+ pretty newIndex)
      :: rest.
Proof.
  intros Hids Hrange. unfold moveChannelFilterToPosition. cbn [run].
  rewrite Hids, (jsindex_None ids oldIndex Hrange).
  cbn [mbind Prog_bind bind assign await run after trace requests interpolate].
  case_respond; cbn; eexists; reflexivity.
Qed.

Lemma moveChannelFilterToPosition_out_of_range_witness :
  exists rest,
    requests (trace (run server_up (moveChannelFilterToPosition move_by_splice "A" 5 0)
                       loaded))
    = (PUT, "/channel_filters/undefined/move_to_position/?position=0") :: rest.
Proof.
  apply (moveChannelFilterToPosition_out_of_range move_by_splice server_up loaded
           "A" ["F1"; "F2"] 5 0 eq_refl).
  right. cbn. lia.
Defined.

(** X7: when the [move_to_position] PUT fails, the promise rejects, the
    channel filters are not reloaded, and the local list keeps the order
    that [move] gave it. *)
Theorem moveChannelFilterToPosition_failed_put
    (move : list string -> Z -> Z -> list string) (srv : Server) (s : State)
    (alertReceiveChannelId : string) (ids : list string) (oldIndex newIndex : Z) :
  channelFilterIds s !! alertReceiveChannelId = Some ids ->
  respond srv _
    (makeRequest ExpectIgnored
       ("/channel_filters/" +:+ interpolate (jsindex ids oldIndex)
          +:+ "/move_to_position/?position=" +:+ pretty newIndex)
       (request (Some PUT))) = None ->
  let r := run srv (moveChannelFilterToPosition move alertReceiveChannelId
                      oldIndex newIndex) s in
  outcome r = Rejected "request failed"
  /\ length (requests (trace r)) = 1%nat
  /\ final r
     = set_channelFilterIds
         (<[alertReceiveChannelId := move ids oldIndex newIndex]> (channelFilterIds s)) s.
Proof.
  intros Hids Hput r. subst r. unfold moveChannelFilterToPosition. cbn [run].
  rewrite Hids. cbn in Hput |- *. rewrite Hput. by cbn.
Qed.

Lemma moveChannelFilterToPosition_failed_put_witness :
  let r := run server_refusing_writes
             (moveChannelFilterToPosition move_by_splice "A" 0 1) loaded in
  outcome r = Rejected "request failed"
  /\ length (requests (trace r)) = 1%nat
  /\ final r = set_channelFilterIds (<["A" := ["F2"; "F1"]]> (channelFilterIds loaded)) loaded.
Proof.
  apply (moveChannelFilterToPosition_failed_put move_by_splice server_refusing_writes
           loaded "A" ["F1"; "F2"] 0 1 eq_refl eq_refl).
Defined.

(** ** Saving one resource *)

(** X8: on a response, [saveChannelFilter] resolves to it and stores it in
    [channelFilters] under the id of the response (not the id it was called
    with); every other filter and the ordered lists stay as they were. *)
Theorem saveChannelFilter_stores_response (srv : Server) (s : State)
    (channelFilterId : string) (data : ChannelFilterPatch) (response : ChannelFilter) :
  respond srv _
    (makeRequest ExpectChannelFilter ("/channel_filters/" +:+ channelFilterId +:+ "/")
       {| method := Some PUT; params := [];
          data := ChannelFilterData data; withCredentials := false |}) = Some response ->
  let r := run srv (saveChannelFilter channelFilterId data) s in
  outcome r = Resolved response
  /\ channelFilters (final r) !! cf_id response = Some response
  /\ (forall k, k <> cf_id response ->
        channelFilters (final r) !! k = channelFilters s !! k)
  /\ final r = set_channelFilters (channelFilters (final r)) s.
Proof.
  intros Hresp r. subst r. unfold saveChannelFilter.
  cbn in Hresp |- *. rewrite Hresp. cbn.
  split; [done |]. split; [apply lookup_insert_eq |]. split; [| done].
  intros k Hk. by apply lookup_insert_ne.
Qed.

Lemma saveChannelFilter_stores_response_witness :
  let r := run server_full
             (saveChannelFilter "F2" {| cfp_filtering_term := None; cfp_is_default := None |})
             loaded in
  outcome r = Resolved filter_F1
  /\ channelFilters (final r) !! "F1" = Some filter_F1
  /\ channelFilters (final r) !! "F2" = Some filter_F2.
Proof.
  destruct (saveChannelFilter_stores_response server_full loaded "F2"
              {| cfp_filtering_term := None; cfp_is_default := None |} filter_F1 eq_refl)
    as (Hout & Hown & Hother & _).
  split; [exact Hout |]. split; [exact Hown |].
  rewrite (Hother "F2"); [reflexivity | discriminate].
Defined.

(** X9: for an id that is not in [items], the body of
    [saveAlertReceiveChannel] raises a TypeError into its
    [WithGlobalNotification] wrapper before the PUT is made: no request is
    sent and no field of the store is written. *)
Theorem saveAlertReceiveChannel_unknown_sends_nothing (srv : Server) (s : State)
    (id : string) (payload : UpdatePayload) :
  items s !! id = None ->
  let body := run srv (saveAlertReceiveChannel id payload) s in
  trace body = [] /\ final body = s /\ outcome body = Rejected "TypeError".
Proof.
  intros Hnone body. subst body. unfold saveAlertReceiveChannel. cbn [run].
  by rewrite Hnone.
Qed.

Lemma saveAlertReceiveChannel_unknown_sends_nothing_witness :
  let body :=
    run server_full
      (saveAlertReceiveChannel "A"
         {| pl_description_short := None; pl_verbal_name := None;
            pl_allow_source_based_resolving := None; pl_alert_group_labels := None |})
      initial in
  trace body = [] /\ final body = initial /\ outcome body = Rejected "TypeError".
Proof.
  apply (saveAlertReceiveChannel_unknown_sends_nothing server_full initial "A").
  reflexivity.
Defined.

(** X10: for a known integration, [saveAlertReceiveChannel] sends one PUT
    whose body takes each of the four members from the payload when the
    payload has it and from the current integration otherwise, and on a
    response stores the response under the id it was called with, leaving
    every other entry of [items] as it was. *)
Theorem saveAlertReceiveChannel_stores_response (srv : Server) (s : State)
    (id : string) (payload : UpdatePayload)
    (currentIntegration response : AlertReceiveChannel) :
  items s !! id = Some currentIntegration ->
  let body :=
    {| upd_description_short :=
         match pl_description_short payload with
         | Some v => v
         | None => arc_description_short currentIntegration
         end;
       upd_verbal_name :=
         match pl_verbal_name payload with
         | Some v => v
         | None => arc_verbal_name currentIntegration
         end;
       upd_allow_source_based_resolving :=
         match pl_allow_source_based_resolving payload with
         | Some v => v
         | None => arc_allow_source_based_resolving currentIntegration
         end;
       upd_alert_group_labels :=
         match pl_alert_group_labels payload with
         | Some v => v
         | None => arc_alert_group_labels currentIntegration
         end |} in
  respond srv _ (onCallApi_PUT_alert_receive_channels_id None id body) = Some response ->
  let r := run srv (saveAlertReceiveChannel id payload) s in
  trace r
    = [Requested (onCallApi_PUT_alert_receive_channels_id None id body) (Some response);
       Committed s (set_items (<[id := response]> (items s)) s)]
  /\ outcome r = Resolved tt
  /\ items (final r) !! id = Some response
  /\ (forall k, k <> id -> items (final r) !! k = items s !! k).
Proof.
  intros Hcur body Hresp r. subst r body. unfold saveAlertReceiveChannel. cbn [run].
  rewrite Hcur. unfold update_body. cbn in Hresp |- *.
  destruct payload as [[d |] [v |] [a |] [l |]]; cbn in Hresp |- *; rewrite Hresp; cbn;
    (split; [done |]); (split; [done |]); (split; [apply lookup_insert_eq |]);
    intros k Hk; by apply lookup_insert_ne.
Qed.

Lemma saveAlertReceiveChannel_stores_response_witness :
  let s := set_items {[ "A" := channel_A; "B" := channel_B ]} initial in
  let r := run server_full
             (saveAlertReceiveChannel "A"
                {| pl_description_short := None; pl_verbal_name := Some (Some "Renamed");
                   pl_allow_source_based_resolving := None;
                   pl_alert_group_labels := None |}) s in
  outcome r = Resolved tt
  /\ items (final r) !! "A" = Some channel_B
  /\ items (final r) !! "B" = Some channel_B.
Proof.
  intros s.
  destruct (saveAlertReceiveChannel_stores_response server_full s "A"
              {| pl_description_short := None; pl_verbal_name := Some (Some "Renamed");
                 pl_allow_source_based_resolving := None;
                 pl_alert_group_labels := None |}
              channel_A channel_B) as (_ & Hout & Hown & Hother).
  - vm_compute. reflexivity.
  - reflexivity.
  - split; [exact Hout |]. split; [exact Hown |].
    rewrite (Hother "B"); [vm_compute; reflexivity | discriminate].
Defined.

(** X11: [fetchTemplates] and [saveTemplates] both store the response under
    the id of the integration and change nothing else; the request goes to
    [/alert_receive_channel_templates/{id}/], as a GET and as a PUT. *)
Theorem templates_store_response (srv : Server) (s : State)
    (alertReceiveChannelId : string) (alertGroupId : option string)
    (data : AlertTemplatesDTO) (fetched saved : list AlertTemplatesDTO) :
  respond srv _
    (makeRequest ExpectTemplates
       ("/alert_receive_channel_templates/" +:+ alertReceiveChannelId +:+ "/")
       {| method := None; params := [("alert_group_id", alertGroupId)];
          data := NoData; withCredentials := true |}) = Some fetched ->
  respond srv _
    (makeRequest ExpectTemplates
       ("/alert_receive_channel_templates/" +:+ alertReceiveChannelId +:+ "/")
       {| method := Some PUT; params := [];
          data := TemplatesData data; withCredentials := true |}) = Some saved ->
  let rf := run srv (fetchTemplates alertReceiveChannelId alertGroupId) s in
  let rs := run srv (saveTemplates alertReceiveChannelId data) s in
  final rf = set_templates (<[alertReceiveChannelId := fetched]> (templates s)) s
  /\ final rs = set_templates (<[alertReceiveChannelId := saved]> (templates s)) s
  /\ requests (trace rf)
     = [(GET, "/alert_receive_channel_templates/" +:+ alertReceiveChannelId +:+ "/")]
  /\ requests (trace rs)
     = [(PUT, "/alert_receive_channel_templates/" +:+ alertReceiveChannelId +:+ "/")]
  /\ (forall k, k <> alertReceiveChannelId ->
        templates (final rf) !! k = templates s !! k
        /\ templates (final rs) !! k = templates s !! k).
Proof.
  intros Hfetch Hsave rf rs. subst rf rs. unfold fetchTemplates, saveTemplates.
  cbn in Hfetch, Hsave |- *. rewrite Hfetch, Hsave. cbn.
  repeat (split; [done |]).
  intros k Hk. by rewrite !lookup_insert_ne.
Qed.

Lemma templates_store_response_witness :
  templates (final (run server_full (fetchTemplates "A" None) initial)) !! "A"
    = Some templates_A
  /\ templates (final (run server_full
                         (saveTemplates "A" {| tpl_fields := [] |}) initial)) !! "A"
     = Some templates_A.
Proof.
  destruct (templates_store_response server_full initial "A" None
              {| tpl_fields := [] |} templates_A templates_A eq_refl eq_refl)
    as (Hf & Hs & _).
  rewrite Hf, Hs. split; vm_compute; reflexivity.
Defined.

(** ** Connected contact points and counters *)

Lemma contact_points_of_concat (payloads : list ContactPointsPayload) :
  contact_points_of payloads
  = concat ((fun payload =>
               (fun cp =>
                  {| dataSourceName := cpp_name payload;
                     dataSourceId := cpp_uid payload;
                     contactPoint := ccp_name cp;
                     notificationConnected := ccp_notification_connected cp |})
               <$> cpp_contact_points payload) <$> payloads).
Proof.
  unfold contact_points_of.
  rewrite <- (app_nil_l (concat _)). generalize (@nil ContactPoint) as acc.
  induction payloads as [| payload payloads IH]; intros acc; cbn [foldl fmap list_fmap concat].
  - by rewrite app_nil_r.
  - rewrite IH. by rewrite <- app_assoc.
Qed.

(** X12: [fetchConnectedContactPoints] stores under the id of the integration
    one entry per contact point of every data source of the response, in the
    order of the response, each carrying the name and uid of its data source;
    a data source without contact points contributes nothing, and the lists
    of other integrations stay as they were. *)
Theorem fetchConnectedContactPoints_flattens (srv : Server) (s : State)
    (alertReceiveChannelId : string) (response : list ContactPointsPayload) :
  respond srv _ (onCallApi_GET_connected_contact_points alertReceiveChannelId)
    = Some response ->
  let r := run srv (fetchConnectedContactPoints alertReceiveChannelId) s in
  exists stored,
    connectedContactPoints (final r) !! alertReceiveChannelId = Some stored
    /\ stored
       = concat ((fun payload =>
                    (fun cp =>
                       {| dataSourceName := cpp_name payload;
                          dataSourceId := cpp_uid payload;
                          contactPoint := ccp_name cp;
                          notificationConnected := ccp_notification_connected cp |})
                    <$> cpp_contact_points payload) <$> response)
    /\ length stored = sum_list ((fun payload => length (cpp_contact_points payload))
                                 <$> response)
    /\ (forall k, k <> alertReceiveChannelId ->
          connectedContactPoints (final r) !! k = connectedContactPoints s !! k).
Proof.
  intros Hresp r. subst r. unfold fetchConnectedContactPoints.
  cbn in Hresp |- *. rewrite Hresp. cbn.
  eexists. split; [apply lookup_insert_eq |].
  split; [apply contact_points_of_concat |]. split.
  - rewrite contact_points_of_concat, length_concat. f_equal.
    rewrite <- list_fmap_compose. apply list_fmap_ext. intros i payload _.
    cbn. by rewrite length_fmap.
  - intros k Hk. by apply lookup_insert_ne.
Qed.

Lemma fetchConnectedContactPoints_flattens_witness :
  exists stored,
    connectedContactPoints
      (final (run server_full (fetchConnectedContactPoints "A") initial)) !! "A"
      = Some stored
    /\ contactPoint <$> stored = ["oncall"; "email"; "pager"]
    /\ dataSourceName <$> stored = ["Mimir"; "Mimir"; "Tempo"].
Proof.
  destruct (fetchConnectedContactPoints_flattens server_full initial "A"
              contact_points_payloads eq_refl) as (stored & Hl & Hs & _).
  exists stored. split; [exact Hl |]. rewrite Hs. split; reflexivity.
Defined.

(** X13: [fetchCountersForIntegration] resolves to the whole response but
    stores only the counters of the id it was called with; when the response
    has none for that id it stores an empty object under it, and the counters
    of every other integration stay as they were. *)
Theorem fetchCountersForIntegration_stores_own_entry (srv : Server) (s : State)
    (id : string) (response : gmap string AlertReceiveChannelCounters) :
  respond srv _ (onCallApi_GET_counters_id id) = Some response ->
  let r := run srv (fetchCountersForIntegration id) s in
  outcome r = Resolved response
  /\ (forall c, response !! id = Some c -> counters (final r) !! id = Some c)
  /\ (response !! id = None ->
        counters (final r) !! id
        = Some {| alerts_count := None; alert_groups_count := None |})
  /\ (forall k, k <> id -> counters (final r) !! k = counters s !! k).
Proof.
  intros Hresp r. subst r. unfold fetchCountersForIntegration.
  cbn in Hresp |- *. rewrite Hresp. cbn.
  split; [done |]. split; [| split].
  - intros c Hc. rewrite lookup_insert_eq. by rewrite Hc.
  - intros Hnone. rewrite lookup_insert_eq. by rewrite Hnone.
  - intros k Hk. by apply lookup_insert_ne.
Qed.

Lemma fetchCountersForIntegration_stores_own_entry_witness :
  counters (final (run server_full (fetchCountersForIntegration "A") initial)) !! "A"
    = Some counters_A
  /\ counters (final (run server_full (fetchCountersForIntegration "B") initial)) !! "B"
     = Some {| alerts_count := None; alert_groups_count := None |}
  /\ counters (final (run server_full (fetchCountersForIntegration "B") initial)) !! "A"
     = None.
Proof.
  destruct (fetchCountersForIntegration_stores_own_entry server_full initial "A"
              {[ "A" := counters_A ]} eq_refl) as (_ & HA & _ & _).
  destruct (fetchCountersForIntegration_stores_own_entry server_full initial "B"
              {[ "A" := counters_A ]} eq_refl) as (_ & _ & HB & Hother).
  split; [apply HA; reflexivity |]. split; [apply HB; reflexivity |].
  rewrite (Hother "A"); [reflexivity | discriminate].
Defined.

(** ** Listing integrations *)

Lemma final_fetchItems (srv : Server) (s : State) (query : Query) (page : Page) :
  respond srv _
    (onCallApi_GET_alert_receive_channels
       match query with
       | QueryString search => SearchParams search
       | QueryObject q => RawParams q
       end) = Some page ->
  let r := run srv (fetchItems query) s in
  outcome r = Resolved (page_results page)
  /\ items (final r) = keyed_without_heartbeat (page_results page) ∪ items s
  /\ heartbeatStore_items (final r)
     = heartbeats_of (page_results page) ∪ heartbeatStore_items s
  /\ alertReceiveChannelToHeartbeat (final r)
     = heartbeat_ids_of (page_results page) ∪ alertReceiveChannelToHeartbeat s
  /\ searchResult (final r) = Some (arc_id <$> page_results page)
  /\ counters (final r) = default (counters s) (respond srv _ onCallApi_GET_counters)
  /\ requests (trace r)
     = [(GET, "/alert_receive_channels/"); (GET, "/alert_receive_channels/counters/")].
Proof.
  intros Hpage r. subst r. unfold fetchItems, fetchCounters.
  cbn in Hpage |- *. rewrite Hpage. cbn.
  destruct (respond srv _ onCallApi_GET_counters); cbn; repeat split; reflexivity.
Qed.

(** X14: [fetchItems] resolves to the integrations of the response and sets
    [searchResult] to their ids in the order of the response whether or not
    the counters can be refetched: the counters are requested without being
    awaited, so when that request fails the rejection stays unhandled,
    [counters] keeps its value and [fetchItems] still resolves. *)
Theorem fetchItems_resolves_without_counters (srv : Server) (s : State)
    (query : Query) (page : Page) :
  respond srv _
    (onCallApi_GET_alert_receive_channels
       match query with
       | QueryString search => SearchParams search
       | QueryObject q => RawParams q
       end) = Some page ->
  let r := run srv (fetchItems query) s in
  outcome r = Resolved (page_results page)
  /\ searchResult (final r) = Some (arc_id <$> page_results page)
  /\ (respond srv _ onCallApi_GET_counters = None ->
        counters (final r) = counters s
        /\ last (trace r) = Some (UnhandledRejection "request failed"))
  /\ (forall snapshot, respond srv _ onCallApi_GET_counters = Some snapshot ->
        counters (final r) = snapshot).
Proof.
  intros Hpage r.
  destruct (final_fetchItems srv s query page Hpage)
    as (Hout & _ & _ & _ & Hsearch & Hcounters & _).
  fold r in Hout, Hsearch, Hcounters.
  split; [done |]. split; [done |]. split.
  - intros Hnone. split; [by rewrite Hcounters, Hnone |].
    subst r. unfold fetchItems, fetchCounters.
    cbn in Hpage |- *. rewrite Hpage. cbn. by rewrite Hnone.
  - intros snapshot Hsome. by rewrite Hcounters, Hsome.
Qed.

Lemma fetchItems_resolves_without_counters_witness :
  let r := run server_without_counters (fetchItems (QueryString "grafana")) initial in
  outcome r = Resolved [channel_A; channel_B]
  /\ searchResult (final r) = Some ["A"; "B"]
  /\ counters (final r) = ∅
  /\ last (trace r) = Some (UnhandledRejection "request failed").
Proof.
  destruct (fetchItems_resolves_without_counters server_without_counters initial
              (QueryString "grafana")
              {| page_count := Some 2; page_results := [channel_A; channel_B];
                 page_page_size := Some 25 |} eq_refl)
    as (Hout & Hsearch & Hfail & _).
  destruct (Hfail eq_refl) as [Hc Hlast].
  split; [exact Hout |]. split; [exact Hsearch |]. split; [exact Hc | exact Hlast].
Defined.

Lemma keyed_without_heartbeat_None (results : list AlertReceiveChannel) (k : string) :
  k ∉ arc_id <$> results -> keyed_without_heartbeat results !! k = None.
Proof.
  intros Hk. destruct (keyed_without_heartbeat results !! k) as [e |] eqn:He; [| done].
  destruct (keyed_without_heartbeat_Some results k e He) as (item & Hin & Hid & _).
  exfalso. apply Hk. apply list_elem_of_fmap. by exists item.
Qed.

Lemma heartbeat_ids_of_None (results : list AlertReceiveChannel) (k : string) :
  (forall item, item ∈ results -> arc_id item = k ->
     truthy (arc_heartbeat item) = None) ->
  heartbeat_ids_of results !! k = None.
Proof.
  intros Hk. destruct (heartbeat_ids_of results !! k) as [v |] eqn:Hv; [| done].
  destruct (reduce_lookup_Some _ heartbeat_id_entry heartbeat_ids_of_entry
              results k v Hv) as (item & Hin & Hentry).
  unfold heartbeat_id_entry in Hentry.
  destruct (truthy (arc_heartbeat item)) as [hb |] eqn:Hhb; [| done].
  injection Hentry as Hid _. by rewrite (Hk item Hin Hid) in Hhb.
Qed.

(** X15: a list fetch touches only the entries of the listed ids: every other
    entry of [items] stays as it was.  It never clears a heartbeat
    association: an integration that is listed without a heartbeat keeps in
    [alertReceiveChannelToHeartbeat] whatever heartbeat id it had before. *)
Theorem fetchItems_keeps_unlisted_and_stale (srv : Server) (s : State)
    (query : Query) (page : Page) :
  respond srv _
    (onCallApi_GET_alert_receive_channels
       match query with
       | QueryString search => SearchParams search
       | QueryObject q => RawParams q
       end) = Some page ->
  let r := run srv (fetchItems query) s in
  (forall k, k ∉ arc_id <$> page_results page ->
     items (final r) !! k = items s !! k)
  /\ (forall k,
        (forall item, item ∈ page_results page -> arc_id item = k ->
           truthy (arc_heartbeat item) = None) ->
        alertReceiveChannelToHeartbeat (final r) !! k
        = alertReceiveChannelToHeartbeat s !! k).
Proof.
  intros Hpage r.
  destruct (final_fetchItems srv s query page Hpage)
    as (_ & Hitems & _ & Hids & _).
  fold r in Hitems, Hids. split.
  - intros k Hk. rewrite Hitems.
    apply lookup_union_r. by apply keyed_without_heartbeat_None.
  - intros k Hk. rewrite Hids.
    apply lookup_union_r. by apply heartbeat_ids_of_None.
Qed.

Lemma fetchItems_keeps_unlisted_and_stale_witness :
  let s := set_alertReceiveChannelToHeartbeat {[ "B" := "H7" ]}
             (set_items {[ "C" := channel_B ]} initial) in
  let r := run server_up (fetchItems (QueryString "")) s in
  items (final r) !! "C" = Some channel_B
  /\ alertReceiveChannelToHeartbeat (final r) !! "B" = Some "H7".
Proof.
  intros s.
  destruct (fetchItems_keeps_unlisted_and_stale server_up s (QueryString "")
              {| page_count := Some 2; page_results := [channel_A; channel_B];
                 page_page_size := Some 25 |} eq_refl) as [Hitems Hstale].
  split.
  - rewrite (Hitems "C"); [vm_compute; reflexivity |].
    intros Hin. cbn in Hin.
    apply elem_of_cons in Hin as [Hin | Hin]; [discriminate Hin |].
    apply elem_of_cons in Hin as [Hin | Hin]; [discriminate Hin |].
    by apply elem_of_nil in Hin.
  - rewrite (Hstale "B"); [vm_compute; reflexivity |].
    intros item Hin Hid.
    apply elem_of_cons in Hin as [-> | Hin]; [discriminate Hid |].
    apply elem_of_cons in Hin as [-> | Hin]; [reflexivity |].
    by apply elem_of_nil in Hin.
Defined.

(** ** Populating heartbeats *)

(** X16: [populateHearbeats] makes no request.  For an integration with a
    heartbeat it records the heartbeat in the heartbeat store under the id of
    the heartbeat, and the id of the heartbeat under the id of the
    integration, provided the array gives that heartbeat id one heartbeat and
    that integration one heartbeat id; when no integration of the array has a
    heartbeat, the state stays as it was. *)
Theorem populateHearbeats_records (srv : Server) (s : State)
    (alertReceiveChannels : list AlertReceiveChannel) :
  let r := run srv (populateHearbeats alertReceiveChannels) s in
  requests (trace r) = []
  /\ outcome r = Resolved tt
  /\ (forall item hb,
        item ∈ alertReceiveChannels -> arc_heartbeat item = Val hb ->
        (forall item' hb', item' ∈ alertReceiveChannels ->
           arc_heartbeat item' = Val hb' -> hb_id hb' = hb_id hb -> hb' = hb) ->
        heartbeatStore_items (final r) !! hb_id hb = Some hb)
  /\ (forall item hb,
        item ∈ alertReceiveChannels -> arc_heartbeat item = Val hb ->
        (forall item' hb', item' ∈ alertReceiveChannels ->
           arc_heartbeat item' = Val hb' -> arc_id item' = arc_id item ->
           hb_id hb' = hb_id hb) ->
        alertReceiveChannelToHeartbeat (final r) !! arc_id item = Some (hb_id hb))
  /\ ((forall item, item ∈ alertReceiveChannels ->
         truthy (arc_heartbeat item) = None) ->
      final r = s).
Proof.
  intros r. subst r. unfold populateHearbeats. cbn.
  split; [done |]. split; [done |]. split; [| split].
  - intros item hb Hin Hhb Huniq. apply lookup_union_Some_l.
    apply (reduce_lookup_unique _ heartbeat_entry heartbeats_of_entry
             alertReceiveChannels item (hb_id hb) hb Hin).
    + unfold heartbeat_entry. by rewrite Hhb.
    + intros item' hb' Hin' Hentry. unfold heartbeat_entry in Hentry.
      destruct (arc_heartbeat item') as [| | hb''] eqn:Hhb'; cbn in Hentry; try done.
      injection Hentry as Hid ->. by eapply Huniq.
  - intros item hb Hin Hhb Huniq. apply lookup_union_Some_l.
    apply (reduce_lookup_unique _ heartbeat_id_entry heartbeat_ids_of_entry
             alertReceiveChannels item (arc_id item) (hb_id hb) Hin).
    + unfold heartbeat_id_entry. by rewrite Hhb.
    + intros item' v Hin' Hentry. unfold heartbeat_id_entry in Hentry.
      destruct (arc_heartbeat item') as [| | hb''] eqn:Hhb'; cbn in Hentry; try done.
      injection Hentry as Hid <-. by eapply Huniq.
  - intros Hnone.
    assert (Hhbs : heartbeats_of alertReceiveChannels = ∅).
    { apply map_eq. intros k. rewrite lookup_empty.
      destruct (heartbeats_of alertReceiveChannels !! k) as [v |] eqn:Hv; [| done].
      destruct (reduce_lookup_Some _ heartbeat_entry heartbeats_of_entry
                  alertReceiveChannels k v Hv) as (item & Hin & Hentry).
      unfold heartbeat_entry in Hentry. by rewrite (Hnone item Hin) in Hentry. }
    assert (Hids : heartbeat_ids_of alertReceiveChannels = ∅).
    { apply map_eq. intros k. rewrite lookup_empty.
      apply heartbeat_ids_of_None. intros item Hin _. by apply Hnone. }
    rewrite Hhbs, Hids, !(left_id_L ∅ (∪)). by destruct s.
Qed.

Lemma populateHearbeats_records_witness :
  let r := run server_down (populateHearbeats [channel_A; channel_B]) initial in
  heartbeatStore_items (final r) !! "H1" = Some heartbeat_H1
  /\ alertReceiveChannelToHeartbeat (final r) !! "A" = Some "H1"
  /\ final (run server_down (populateHearbeats [channel_B]) loaded) = loaded.
Proof.
  destruct (populateHearbeats_records server_down initial [channel_A; channel_B])
    as (_ & _ & Hhb & Hid & _).
  destruct (populateHearbeats_records server_down loaded [channel_B])
    as (_ & _ & _ & _ & Hsame).
  assert (Hone : forall (item' : AlertReceiveChannel) (hb' : Heartbeat),
             item' ∈ [channel_A; channel_B] -> arc_heartbeat item' = Val hb' ->
             hb' = heartbeat_H1).
  { intros item' hb' Hin Hval.
    apply elem_of_cons in Hin as [-> | Hin]; [by injection Hval as <- |].
    apply elem_of_cons in Hin as [-> | Hin]; [discriminate Hval |].
    by apply elem_of_nil in Hin. }
  split; [| split].
  - apply (Hhb channel_A heartbeat_H1); [apply list_elem_of_here | reflexivity |].
    intros item' hb' Hin Hval _. by apply (Hone item').
  - apply (Hid channel_A heartbeat_H1); [apply list_elem_of_here | reflexivity |].
    intros item' hb' Hin Hval _. by rewrite (Hone item' hb' Hin Hval).
  - apply Hsame. intros item Hin.
    apply elem_of_cons in Hin as [-> | Hin]; [reflexivity |].
    by apply elem_of_nil in Hin.
Defined.

(** ** Paginated listing *)

(** X17: when [invalidateFn] answers true after the response has arrived,
    [fetchPaginatedItems] resolves to [undefined] and writes nothing: the
    response is dropped and the counters are not requested, whatever
    [shouldFetchCounters] says. *)
Theorem fetchPaginatedItems_invalidated_drops_response (srv : Server) (s : State)
    (filters : list (string * string)) (page : Z) (shouldFetchCounters : bool)
    (pg : Page) :
  respond srv _ (onCallApi_GET_alert_receive_channels (PagedQuery filters page))
    = Some pg ->
  run srv (fetchPaginatedItems filters page shouldFetchCounters (Some true)) s
  = {| trace :=
         [Requested (onCallApi_GET_alert_receive_channels (PagedQuery filters page))
                    (Some pg)];
       final := s; outcome := Resolved None |}.
Proof.
  intros Hpg. unfold fetchPaginatedItems. cbn in Hpg |- *. by rewrite Hpg.
Qed.

Lemma fetchPaginatedItems_invalidated_drops_response_witness :
  final (run server_up (fetchPaginatedItems [] 2 true (Some true)) loaded) = loaded
  /\ outcome (run server_up (fetchPaginatedItems [] 2 true (Some true)) loaded)
     = Resolved None.
Proof.
  rewrite (fetchPaginatedItems_invalidated_drops_response server_up loaded [] 2 true
             {| page_count := Some 2; page_results := [channel_A; channel_B];
                page_page_size := Some 25 |} eq_refl).
  split; reflexivity.
Defined.

(** X18: a paginated fetch that is not invalidated and is not asked for the
    counters makes one request, resolves to the integrations of the page,
    sets [paginatedSearchResult] to the count, the ids in the order of the
    page and the page size of the response, and leaves [searchResult] and
    [counters] as they were. *)
Theorem fetchPaginatedItems_records_page (srv : Server) (s : State)
    (filters : list (string * string)) (page : Z) (invalidateFn : option bool)
    (pg : Page) :
  respond srv _ (onCallApi_GET_alert_receive_channels (PagedQuery filters page))
    = Some pg ->
  invalidateFn = None \/ invalidateFn = Some false ->
  let r := run srv (fetchPaginatedItems filters page false invalidateFn) s in
  outcome r = Resolved (Some (page_results pg))
  /\ requests (trace r) = [(GET, "/alert_receive_channels/")]
  /\ paginatedSearchResult (final r)
     = {| psr_count := page_count pg;
          psr_results := Some (arc_id <$> page_results pg);
          psr_page_size := page_page_size pg |}
  /\ searchResult (final r) = searchResult s
  /\ counters (final r) = counters s.
Proof.
  intros Hpg Hinv r. subst r. unfold fetchPaginatedItems.
  cbn in Hpg |- *. rewrite Hpg.
  destruct Hinv as [-> | ->]; cbn; repeat split; reflexivity.
Qed.

Lemma fetchPaginatedItems_records_page_witness :
  let r := run server_up (fetchPaginatedItems [("integration", "webhook")] 1 false None)
             initial in
  outcome r = Resolved (Some [channel_A; channel_B])
  /\ paginatedSearchResult (final r)
     = {| psr_count := Some 2; psr_results := Some ["A"; "B"];
          psr_page_size := Some 25 |}.
Proof.
  destruct (fetchPaginatedItems_records_page server_up initial
              [("integration", "webhook")] 1 None
              {| page_count := Some 2; page_results := [channel_A; channel_B];
                 page_page_size := Some 25 |} eq_refl (or_introl eq_refl))
    as (Hout & _ & Hpsr & _).
  split; [exact Hout | exact Hpsr].
Defined.

(** ** Fetching channel filters: what else changes *)

Lemma keyed_channel_filters_None (response : list ChannelFilter) (k : string) :
  k ∉ cf_id <$> response -> keyed_channel_filters response !! k = None.
Proof.
  intros Hk. destruct (keyed_channel_filters response !! k) as [cf |] eqn:Hcf; [| done].
  apply keyed_channel_filters_Some in Hcf as [Hin <-].
  exfalso. apply Hk. apply list_elem_of_fmap. by exists cf.
Qed.

(** X19: [fetchChannelFilters] leaves the ordered lists of all other parents
    as they were.  A filter whose id is not in the response stays in
    [channelFilters] when the fetch merges, and is dropped, whatever parent
    it belongs to, when the fetch overwrites. *)
Theorem fetchChannelFilters_other_entries (srv : Server) (s : State)
    (alertReceiveChannelId : string) (response : list ChannelFilter) :
  respond srv _
    (makeRequest ExpectChannelFilters "/channel_filters/"
       {| method := None;
          params := [("alert_receive_channel", Some alertReceiveChannelId)];
          data := NoData; withCredentials := false |}) = Some response ->
  let merged := final (run srv (fetchChannelFilters alertReceiveChannelId false) s) in
  let overwritten := final (run srv (fetchChannelFilters alertReceiveChannelId true) s) in
  (forall parent, parent <> alertReceiveChannelId ->
     channelFilterIds merged !! parent = channelFilterIds s !! parent
     /\ channelFilterIds overwritten !! parent = channelFilterIds s !! parent)
  /\ (forall k, k ∉ cf_id <$> response ->
        channelFilters merged !! k = channelFilters s !! k
        /\ channelFilters overwritten !! k = None).
Proof.
  intros Hresp merged overwritten.
  destruct (final_fetchChannelFilters srv s alertReceiveChannelId false response Hresp)
    as [_ Hm].
  destruct (final_fetchChannelFilters srv s alertReceiveChannelId true response Hresp)
    as [_ Ho].
  fold merged in Hm. fold overwritten in Ho. rewrite Hm, Ho. cbn. split.
  - intros parent Hne. by rewrite lookup_insert_ne.
  - intros k Hk. split.
    + apply lookup_union_r. by apply keyed_channel_filters_None.
    + by apply keyed_channel_filters_None.
Qed.

Lemma fetchChannelFilters_other_entries_witness :
  channelFilterIds (final (run server_up (fetchChannelFilters "A" true) loaded)) !! "B"
    = Some ["G1"]
  /\ channelFilters (final (run server_up (fetchChannelFilters "A" false) loaded)) !! "G1"
     = Some filter_G1
  /\ channelFilters (final (run server_up (fetchChannelFilters "A" true) loaded)) !! "G1"
     = None.
Proof.
  destruct (fetchChannelFilters_other_entries server_up loaded "A"
              [filter_F2; filter_F1] eq_refl) as [Hids Hcf].
  assert (Hnot : "G1" ∉ cf_id <$> [filter_F2; filter_F1]).
  { intros Hin. cbn in Hin.
    apply elem_of_cons in Hin as [Hin | Hin]; [discriminate Hin |].
    apply elem_of_cons in Hin as [Hin | Hin]; [discriminate Hin |].
    by apply elem_of_nil in Hin. }
  destruct (Hids "B") as [_ HB]; [discriminate |].
  destruct (Hcf "G1" Hnot) as [Hm Ho].
  split; [rewrite HB; reflexivity |]. split; [rewrite Hm; reflexivity | exact Ho].
Defined.

(** X20: fetching the channel filters of a parent twice from a server that
    answers the same both times leaves the state of the first fetch, in
    either mode. *)
Theorem fetchChannelFilters_idempotent (srv : Server) (s : State)
    (alertReceiveChannelId : string) (isOverwrite : bool)
    (response : list ChannelFilter) :
  respond srv _
    (makeRequest ExpectChannelFilters "/channel_filters/"
       {| method := None;
          params := [("alert_receive_channel", Some alertReceiveChannelId)];
          data := NoData; withCredentials := false |}) = Some response ->
  let once := final (run srv (fetchChannelFilters alertReceiveChannelId isOverwrite) s) in
  final (run srv (fetchChannelFilters alertReceiveChannelId isOverwrite) once) = once.
Proof.
  intros Hresp once.
  destruct (final_fetchChannelFilters srv once alertReceiveChannelId isOverwrite
              response Hresp) as [_ Htwice].
  destruct (final_fetchChannelFilters srv s alertReceiveChannelId isOverwrite
              response Hresp) as [_ Honce].
  fold once in Honce. rewrite Htwice. rewrite Honce at 1 2 3. cbn.
  rewrite insert_insert_eq.
  destruct isOverwrite.
  - by rewrite Honce.
  - rewrite (assoc_L (∪)), (idemp_L (∪)). by rewrite Honce.
Qed.

Lemma fetchChannelFilters_idempotent_witness :
  let once := final (run server_up (fetchChannelFilters "A" false) loaded) in
  final (run server_up (fetchChannelFilters "A" false) once) = once.
Proof.
  apply (fetchChannelFilters_idempotent server_up loaded "A" false
           [filter_F2; filter_F1] eq_refl).
Defined.

(** ** Creating and updating an integration *)

(** X21: [update], like [create], never writes the store: whatever the
    server answers the state stays as it was, and when the PUT to
    [/alert_receive_channels/{id}/] and the reload of the organization both
    succeed it resolves to the response. *)
Theorem update_returns_without_storing (srv : Server) (s : State)
    (id : string) (data : AlertReceiveChannelUpdate) (skipErrorHandling : option bool) :
  let r := run srv (update id data skipErrorHandling) s in
  final r = s
  /\ (forall result,
        respond srv _ (onCallApi_PUT_alert_receive_channels_id skipErrorHandling id data)
          = Some result ->
        external srv "organizationStore.loadCurrentOrganization" = true ->
        outcome r = Resolved result
        /\ requests (trace r) = [(PUT, "/alert_receive_channels/" +:+ id +:+ "/")]).
Proof.
  intros r. subst r. unfold update. split.
  - run_cases; reflexivity.
  - intros result Hput Hext. cbn. rewrite Hput. cbn. rewrite Hext. by cbn.
Qed.

Lemma update_returns_without_storing_witness :
  let s := set_items {[ "A" := channel_A ]} initial in
  let r := run server_full
             (update "A"
                {| upd_description_short := None; upd_verbal_name := Some "Renamed";
                   upd_allow_source_based_resolving := true;
                   upd_alert_group_labels := [] |} None) s in
  final r = s
  /\ outcome r = Resolved channel_B
  /\ requests (trace r) = [(PUT, "/alert_receive_channels/A/")].
Proof.
  intros s.
  destruct (update_returns_without_storing server_full s "A"
              {| upd_description_short := None; upd_verbal_name := Some "Renamed";
                 upd_allow_source_based_resolving := true;
                 upd_alert_group_labels := [] |} None) as [Hfin Hok].
  destruct (Hok channel_B eq_refl eq_refl) as [Hout Hreq].
  split; [exact Hfin |]. split; [exact Hout | exact Hreq].
Defined.

(** X22: when the server has answered the POST of [create] (the PUT of
    [update]) and the reload of the organization then fails, the request has
    been made and answered, no field of the store is written, and the body
    raises the failure of the reload into its [WithGlobalNotification] wrapper
    instead of returning the integration. *)
Theorem create_update_body_raises_when_reload_fails (srv : Server) (s : State)
    (id : string) (created : AlertReceiveChannel) (changes : AlertReceiveChannelUpdate)
    (skipErrorHandling : option bool) (result result' : AlertReceiveChannel) :
  external srv "organizationStore.loadCurrentOrganization" = false ->
  respond srv _ (onCallApi_POST_alert_receive_channels skipErrorHandling created)
    = Some result ->
  respond srv _ (onCallApi_PUT_alert_receive_channels_id skipErrorHandling id changes)
    = Some result' ->
  let create_body := run srv (create created skipErrorHandling) s in
  let update_body := run srv (update id changes skipErrorHandling) s in
  (trace create_body
   = [Requested (onCallApi_POST_alert_receive_channels skipErrorHandling created)
                (Some result);
      ExternalCall "organizationStore.loadCurrentOrganization" false]
   /\ final create_body = s
   /\ outcome create_body = Rejected "external call failed")
  /\ (trace update_body
      = [Requested
           (onCallApi_PUT_alert_receive_channels_id skipErrorHandling id changes)
           (Some result');
         ExternalCall "organizationStore.loadCurrentOrganization" false]
      /\ final update_body = s
      /\ outcome update_body = Rejected "external call failed").
Proof.
  intros Hext Hpost Hput create_body update_body. subst create_body update_body.
  unfold create, update. cbn. rewrite Hpost, Hput. cbn. by rewrite Hext.
Qed.

Lemma create_update_body_raises_when_reload_fails_witness :
  let create_body := run server_without_organization (create channel_B None) initial in
  requests (trace create_body) = [(POST, "/alert_receive_channels/")]
  /\ final create_body = initial
  /\ outcome create_body = Rejected "external call failed".
Proof.
  destruct (create_update_body_raises_when_reload_fails server_without_organization
              initial "A" channel_B
              {| upd_description_short := None; upd_verbal_name := None;
                 upd_allow_source_based_resolving := false;
                 upd_alert_group_labels := [] |}
              None channel_A channel_B eq_refl eq_refl eq_refl)
    as [(Htrace & Hfinal & Hout) _].
  split; [| split; [exact Hfinal | exact Hout]].
  rewrite Htrace. reflexivity.
Defined.

(** ** All operations *)

(** X23: an undecorated operation (every one but [create], [update] and
    [saveAlertReceiveChannel]) none of whose requests is answered never
    resolves: its promise rejects, with the failure of its first request or
    with the TypeError raised before it. *)
Theorem unanswered_undecorated_operation_rejects
    (move : list string -> Z -> Z -> list string) (srv : Server) (s : State)
    (op : Operation) :
  decorated op = false ->
  let r := run srv (perform move op) s in
  no_response (trace r) = true ->
  exists reason, outcome r = Rejected reason.
Proof.
  intros Hplain r. subst r. destruct op; try discriminate Hplain; unfold perform.
  - unfold fetchItemById. run_cases; intros H; try discriminate H; by eexists.
  - unfold fetchItems. run_cases; intros H; try discriminate H; by eexists.
  - unfold fetchPaginatedItems.
    destruct invalidateFn as [[] |], shouldFetchCounters;
      run_cases; intros H; try discriminate H; by eexists.
  - unfold fetchChannelFilters.
    destruct isOverwrite; run_cases; intros H; try discriminate H; by eexists.
  - unfold saveChannelFilter. run_cases; intros H; try discriminate H; by eexists.
  - unfold moveChannelFilterToPosition, fetchChannelFilters.
    run_cases; intros H; try discriminate H; by eexists.
  - unfold deleteChannelFilter, fetchChannelFilters.
    run_cases; intros H; try discriminate H; by eexists.
  - unfold fetchAlertReceiveChannelOptions.
    run_cases; intros H; try discriminate H; by eexists.
  - unfold fetchTemplates. run_cases; intros H; try discriminate H; by eexists.
  - unfold saveTemplates. run_cases; intros H; try discriminate H; by eexists.
  - unfold fetchConnectedContactPoints.
    run_cases; intros H; try discriminate H; by eexists.
  - unfold fetchCounters. run_cases; intros H; try discriminate H; by eexists.
  - unfold fetchCountersForIntegration.
    run_cases; intros H; try discriminate H; by eexists.
Qed.

Lemma unanswered_undecorated_operation_rejects_witness :
  exists reason,
    outcome (run server_down (perform move_by_splice (OpFetchTemplates "A" None)) loaded)
    = Rejected reason.
Proof.
  apply (unanswered_undecorated_operation_rejects move_by_splice server_down loaded
           (OpFetchTemplates "A" None)); reflexivity.
Defined.

(** X24: the operations named fetch only ever issue GET requests; a DELETE
    is issued by [deleteChannelFilter] alone and a POST by [create] alone. *)
Theorem request_methods_by_operation
    (move : list string -> Z -> Z -> list string) (srv : Server) (s : State)
    (op : Operation) :
  let tr := trace (run srv (perform move op) s) in
  (is_fetch op = true ->
     uses POST tr = false /\ uses PUT tr = false /\ uses DELETE tr = false)
  /\ (uses DELETE tr = true -> exists id, op = OpDeleteChannelFilter id)
  /\ (uses POST tr = true -> exists data skipErrorHandling,
        op = OpCreate data skipErrorHandling).
Proof.
  intros tr. subst tr. unfold uses. destruct op; unfold perform.
  - unfold create. run_cases; repeat split; try discriminate; by eexists _, _.
  - unfold update. run_cases; repeat split; discriminate.
  - unfold fetchItemById. run_cases; repeat split; (reflexivity || discriminate).
  - unfold fetchItems. run_cases; repeat split; (reflexivity || discriminate).
  - unfold fetchPaginatedItems.
    destruct invalidateFn as [[] |], shouldFetchCounters;
      run_cases; repeat split; (reflexivity || discriminate).
  - unfold fetchChannelFilters.
    destruct isOverwrite; run_cases; repeat split; (reflexivity || discriminate).
  - unfold saveChannelFilter. run_cases; repeat split; discriminate.
  - unfold moveChannelFilterToPosition, fetchChannelFilters.
    run_cases; repeat split; discriminate.
  - unfold deleteChannelFilter, fetchChannelFilters.
    run_cases; repeat split; try discriminate; by eexists.
  - unfold fetchAlertReceiveChannelOptions.
    run_cases; repeat split; (reflexivity || discriminate).
  - unfold saveAlertReceiveChannel. run_cases; repeat split; discriminate.
  - unfold fetchTemplates. run_cases; repeat split; (reflexivity || discriminate).
  - unfold saveTemplates. run_cases; repeat split; discriminate.
  - unfold fetchConnectedContactPoints.
    run_cases; repeat split; (reflexivity || discriminate).
  - unfold fetchCounters. run_cases; repeat split; (reflexivity || discriminate).
  - unfold fetchCountersForIntegration.
    run_cases; repeat split; (reflexivity || discriminate).
Qed.

Lemma request_methods_by_operation_witness :
  let tr := trace (run server_full (perform move_by_splice (OpFetchItems (QueryString "")))
                     initial) in
  uses POST tr = false /\ uses PUT tr = false /\ uses DELETE tr = false.
Proof.
  apply (request_methods_by_operation move_by_splice server_full initial
           (OpFetchItems (QueryString ""))).
  reflexivity.
Defined.

(** ** The wording of a whole list of routes *)

(** X25: for a list of at least two routes, the wordings of its positions,
    in order, are 'If', then 'Else' for every position in between, then
    'Default'. *)
Theorem wording_of_all_positions (channelFilters : list string) :
  (2 <= length channelFilters)%nat ->
  (fun i => CommonIntegrationHelper.getRouteConditionWording channelFilters (Z.of_nat i))
    <$> seq 0 (length channelFilters)
  = CommonIntegrationHelper.If
    :: replicate (length channelFilters - 2) CommonIntegrationHelper.Else
    ++ [CommonIntegrationHelper.Default].
Proof.
  intros Hlen. set (n := length channelFilters) in *.
  apply list_eq. intros i. rewrite list_lookup_fmap.
  destruct (decide (i < n)%nat) as [Hlt | Hge].
  - rewrite lookup_seq_lt by done. cbn [fmap option_fmap option_map Nat.add].
    rewrite wording_cases. fold n.
    destruct i as [| j].
    + repeat case_decide; (reflexivity || lia).
    + rewrite lookup_cons_ne_0 by done. cbn [pred].
      destruct (decide (j < n - 2)%nat) as [Hmid | Hlast].
      * rewrite lookup_app_l by (rewrite length_replicate; lia).
        rewrite lookup_replicate_2 by done.
        repeat case_decide; (reflexivity || lia).
      * rewrite lookup_app_r by (rewrite length_replicate; lia).
        rewrite length_replicate.
        replace (j - (n - 2))%nat with 0%nat by lia.
        repeat case_decide; (reflexivity || lia).
  - rewrite lookup_seq_ge by lia. symmetry. apply lookup_ge_None.
    cbn [length]. rewrite length_app, length_replicate. cbn [length]. lia.
Qed.

Lemma wording_of_all_positions_witness :
  (fun i => CommonIntegrationHelper.getRouteConditionWording
              ["F1"; "F2"; "F3"; "F4"] (Z.of_nat i)) <$> seq 0 4
  = [CommonIntegrationHelper.If; CommonIntegrationHelper.Else;
     CommonIntegrationHelper.Else; CommonIntegrationHelper.Default].
Proof.
  apply (wording_of_all_positions ["F1"; "F2"; "F3"; "F4"]). cbn. lia.
Defined.

(** ** The Google account view *)

(** X26: for a user that is not in the user store the view throws.
    Otherwise it renders exactly one button, under the permission control of
    [UserSettingsWrite]; the button is enabled exactly when the user shown is
    the current user; it is the disconnecting button exactly when the user
    has a Google account connected, and the disconnecting button is always
    inside a confirmation. *)
Theorem GoogleConnector_one_guarded_button (id : string) (userStore : UserStore) :
  (userStore_items userStore !! id = None -> GoogleConnector id userStore = None)
  /\ (forall storeUser,
        userStore_items userStore !! id = Some storeUser ->
        exists tree b,
          GoogleConnector id userStore = Some tree
          /\ placed_buttons false None tree = [b]
          /\ (pb_disabled b = false <-> currentUserPk userStore = Some id)
          /\ pb_permission b = Some UserSettingsWrite
          /\ (pb_onClick b = userStore_disconnectGoogle
              <-> has_google_oauth2_connected storeUser = true)
          /\ (pb_onClick b = userStore_disconnectGoogle -> pb_confirmed b = true)).
Proof.
  unfold GoogleConnector. split.
  - intros Hnone. by rewrite Hnone.
  - intros storeUser Huser. rewrite Huser.
    assert (Hcur : negb (bool_decide (Some id = currentUserPk userStore)) = false
                   <-> currentUserPk userStore = Some id).
    { rewrite negb_false_iff, bool_decide_eq_true. split; congruence. }
    destruct (has_google_oauth2_connected storeUser); eexists _, _;
      (split; [reflexivity |]); cbn; (split; [reflexivity |]);
      (split; [exact Hcur |]); (split; [reflexivity |]); split; (done || split; done).
Qed.

Lemma GoogleConnector_one_guarded_button_witness :
  let userStore :=
    {| userStore_items := {[ "U1" := {| has_google_oauth2_connected := true |};
                             "U2" := {| has_google_oauth2_connected := false |} ]};
       currentUserPk := Some "U1" |} in
  GoogleConnector "U9" userStore = None
  /\ exists tree b,
       GoogleConnector "U2" userStore = Some tree
       /\ placed_buttons false None tree = [b]
       /\ pb_disabled b = true
       /\ pb_onClick b = onTabChange_GoogleCalendar.
Proof.
  intros userStore.
  destruct (GoogleConnector_one_guarded_button "U9" userStore) as [Hnone _].
  destruct (GoogleConnector_one_guarded_button "U2" userStore) as [_ Hsome].
  split; [apply Hnone; reflexivity |].
  destruct (Hsome {| has_google_oauth2_connected := false |} eq_refl)
    as (tree & b & Htree & Hb & Hdis & _ & Hclick & _).
  exists tree, b. split; [exact Htree |]. split; [exact Hb |]. split.
  - destruct (pb_disabled b); [reflexivity |].
    destruct Hdis as [Hdis _]. specialize (Hdis eq_refl). discriminate Hdis.
  - destruct (pb_onClick b); [| reflexivity].
    destruct Hclick as [Hclick _]. specialize (Hclick eq_refl). discriminate Hclick.
Defined.

(** ** A list fetch after a fetch by id *)

(** X27: when an integration fetched by id with its heartbeat is then listed
    by [fetchItems], its entry in [items] loses the [heartbeat] member that
    the fetch by id had stored, while the heartbeat store and
    [alertReceiveChannelToHeartbeat] still know the heartbeat. *)
Theorem fetchItems_after_fetchItemById (srv : Server) (s : State)
    (id : string) (skipErrorHandling : bool) (response : AlertReceiveChannel)
    (hb : Heartbeat) (query : Query) (page : Page) :
  respond srv _ (onCallApi_GET_alert_receive_channels_id (Some skipErrorHandling) id)
    = Some response ->
  arc_heartbeat response = Val hb ->
  respond srv _
    (onCallApi_GET_alert_receive_channels
       match query with
       | QueryString search => SearchParams search
       | QueryObject q => RawParams q
       end) = Some page ->
  id ∈ arc_id <$> page_results page ->
  let s1 := final (run srv (fetchItemById id skipErrorHandling) s) in
  let s2 := final (run srv (fetchItems query) s1) in
  (exists e, items s1 !! id = Some e /\ arc_heartbeat e = Val hb)
  /\ (exists e, items s2 !! id = Some e /\ arc_heartbeat e = Missing)
  /\ is_Some (heartbeatStore_items s2 !! hb_id hb)
  /\ is_Some (alertReceiveChannelToHeartbeat s2 !! arc_id response).
Proof.
  intros Hresp Hhb Hpage Hin s1 s2.
  destruct (final_fetchItems srv s1 query page Hpage)
    as (_ & Hitems & Hstore & Hids & _).
  fold s2 in Hitems, Hstore, Hids.
  assert (H1 : items s1 !! id = Some (with_heartbeat (Val hb) response)
               /\ heartbeatStore_items s1 !! hb_id hb = Some hb
               /\ alertReceiveChannelToHeartbeat s1 !! arc_id response = Some (hb_id hb)).
  { subst s1. unfold fetchItemById. cbn in Hresp |- *. rewrite Hresp. cbn.
    rewrite Hhb. cbn.
    split; [apply lookup_insert_eq |].
    split; (apply lookup_union_Some_l; apply lookup_insert_eq). }
  destruct H1 as (Hitem1 & Hstore1 & Hids1).
  split; [by eexists |]. split; [| split].
  - apply list_elem_of_fmap in Hin as (item & -> & Hitem).
    destruct (keyed_without_heartbeat_present (page_results page) item Hitem)
      as (e & He & Hmissing).
    exists e. split; [| done]. rewrite Hitems. by apply lookup_union_Some_l.
  - rewrite Hstore. apply lookup_union_is_Some. right. by eexists.
  - rewrite Hids. apply lookup_union_is_Some. right. by eexists.
Qed.

Lemma fetchItems_after_fetchItemById_witness :
  let s1 := final (run server_up (fetchItemById "A" false) initial) in
  let s2 := final (run server_up (fetchItems (QueryString "")) s1) in
  (exists e, items s1 !! "A" = Some e /\ arc_heartbeat e = Val heartbeat_H1)
  /\ (exists e, items s2 !! "A" = Some e /\ arc_heartbeat e = Missing)
  /\ is_Some (heartbeatStore_items s2 !! "H1")
  /\ is_Some (alertReceiveChannelToHeartbeat s2 !! "A").
Proof.
  apply (fetchItems_after_fetchItemById server_up initial "A" false channel_A
           heartbeat_H1 (QueryString "")
           {| page_count := Some 2; page_results := [channel_A; channel_B];
              page_page_size := Some 25 |} eq_refl eq_refl eq_refl).
  apply list_elem_of_here.
Defined.
